(** * The [newrelic] declaration file, as data

    [types/newrelic/index.d.ts] holds no function bodies: it is a flat list of
    exported function, constant, interface and type-alias declarations.  The
    development below embeds that list declaration by declaration, together
    with the small part of TypeScript's typing rules a caller of the module is
    checked against (instantiation of type parameters, arity of a call,
    assignability of an argument, choice of an overload), and proves
    properties of the declared surface. *)

From Stdlib Require Import String List Bool Arith Lia.
Import ListNotations.
Local Open Scope string_scope.

(** ** Type expressions *)

Module Ty.

(** How a parameter is written: [x: T], [x?: T] or [...x: T]. *)
Inductive param_kind : Type := Required | Optional | Rest.

#[local] Set Warnings "-register-all".

(** The type expressions that occur in the file.  Names that the file does
    not declare itself ([Error], [RegExp], [Promise], [Record]) are [TRef]s
    like the others; [resolve] below tells them apart. *)
Inductive ty : Type :=
| TString
| TNumber
| TBoolean
| TVoid
| TUndefined
| TAny
| TLitFalse                                (* the literal type [false] *)
| TLitString (s : string)                  (* a string literal type *)
| TVar (x : string)                        (* a type parameter in scope *)
| TRef (name : string) (args : list ty)    (* a named type, with arguments *)
| TArray (elem : ty)                       (* [T[]] *)
| TUnion (alts : list ty)                  (* [A | B | ...] *)
| TFun (params : list param) (ret : ty)    (* [(ps) => R] *)
| TObj (members : list member)             (* [{ ... }] *)
with param : Type :=
| Param (name : string) (kind : param_kind) (t : ty)
with member : Type :=
| MProp (name : string) (optional : bool) (t : ty)     (* [name: T], [name?: T] *)
| MMethod (name : string) (params : list param) (ret : ty)
| MCall (params : list param) (ret : ty)               (* a call signature *)
| MIndex (key : string) (kt : ty) (vt : ty).           (* [[key: K]: V] *)

Definition param_name (p : param) : string := let (n, _, _) := p in n.
Definition param_knd (p : param) : param_kind := let (_, k, _) := p in k.
Definition param_ty (p : param) : ty := let (_, _, t) := p in t.

Definition member_name (m : member) : option string :=
  match m with
  | MProp n _ _ | MMethod n _ _ => Some n
  | MCall _ _ | MIndex _ _ _ => None
  end.

Definition is_method (m : member) : bool :=
  match m with MMethod _ _ _ => true | _ => false end.

(** A type parameter [T] or [T extends C]. *)
Record tparam : Type := TParam { tp_name : string; tp_constraint : option ty }.

(** One call signature of an exported function. *)
Record signature : Type := Sig {
  sig_tparams : list tparam;
  sig_params : list param;
  sig_ret : ty
}.

(** A top-level declaration.  A function with several overloads is several
    [DFunction]s of one name, in the order of the file. *)
Inductive decl : Type :=
| DFunction (name : string) (s : signature)
| DConst (name : string) (t : ty)
| DInterface (name : string) (members : list member)
| DTypeAlias (name : string) (t : ty).

Definition decl_name (d : decl) : string :=
  match d with
  | DFunction n _ | DConst n _ | DInterface n _ | DTypeAlias n _ => n
  end.

(** *** Decidable equality of type expressions *)

Definition list_eqb {A : Type} (eqb : A -> A -> bool) : list A -> list A -> bool :=
  fix go (xs ys : list A) : bool :=
    match xs, ys with
    | [], [] => true
    | x :: xs', y :: ys' => eqb x y && go xs' ys'
    | _, _ => false
    end.

Definition kind_eqb (a b : param_kind) : bool :=
  match a, b with
  | Required, Required | Optional, Optional | Rest, Rest => true
  | _, _ => false
  end.

Fixpoint ty_eqb (a b : ty) {struct a} : bool :=
  match a, b with
  | TString, TString | TNumber, TNumber | TBoolean, TBoolean
  | TVoid, TVoid | TUndefined, TUndefined | TAny, TAny
  | TLitFalse, TLitFalse => true
  | TLitString s, TLitString s' => String.eqb s s'
  | TVar x, TVar y => String.eqb x y
  | TRef n xs, TRef m ys => String.eqb n m && list_eqb ty_eqb xs ys
  | TArray x, TArray y => ty_eqb x y
  | TUnion xs, TUnion ys => list_eqb ty_eqb xs ys
  | TFun ps r, TFun qs r' => list_eqb param_eqb ps qs && ty_eqb r r'
  | TObj ms, TObj ns => list_eqb member_eqb ms ns
  | _, _ => false
  end
with param_eqb (p q : param) {struct p} : bool :=
  match p, q with
  | Param n k t, Param n' k' t' => String.eqb n n' && kind_eqb k k' && ty_eqb t t'
  end
with member_eqb (m n : member) {struct m} : bool :=
  match m, n with
  | MProp x o t, MProp x' o' t' => String.eqb x x' && Bool.eqb o o' && ty_eqb t t'
  | MMethod x ps r, MMethod x' qs r' =>
      String.eqb x x' && list_eqb param_eqb ps qs && ty_eqb r r'
  | MCall ps r, MCall qs r' => list_eqb param_eqb ps qs && ty_eqb r r'
  | MIndex k kt vt, MIndex k' kt' vt' =>
      String.eqb k k' && ty_eqb kt kt' && ty_eqb vt vt'
  | _, _ => false
  end.

(** *** Substitution of type arguments for type parameters *)

Definition tsubst : Type := list (string * ty).

Fixpoint lookup_var (sigma : tsubst) (x : string) : option ty :=
  match sigma with
  | [] => None
  | (y, t) :: rest => if String.eqb x y then Some t else lookup_var rest x
  end.

Fixpoint subst (sigma : tsubst) (t : ty) {struct t} : ty :=
  match t with
  | TVar x => match lookup_var sigma x with Some u => u | None => TVar x end
  | TRef n args => TRef n (map (subst sigma) args)
  | TArray e => TArray (subst sigma e)
  | TUnion alts => TUnion (map (subst sigma) alts)
  | TFun ps r => TFun (map (subst_param sigma) ps) (subst sigma r)
  | TObj ms => TObj (map (subst_member sigma) ms)
  | _ => t
  end
with subst_param (sigma : tsubst) (p : param) {struct p} : param :=
  match p with
  | Param n k t => Param n k (subst sigma t)
  end
with subst_member (sigma : tsubst) (m : member) {struct m} : member :=
  match m with
  | MProp n o t => MProp n o (subst sigma t)
  | MMethod n ps r => MMethod n (map (subst_param sigma) ps) (subst sigma r)
  | MCall ps r => MCall (map (subst_param sigma) ps) (subst sigma r)
  | MIndex k kt vt => MIndex k (subst sigma kt) (subst sigma vt)
  end.

End Ty.
Export Ty.

(** ** The declarations of [index.d.ts], in file order *)

Module Newrelic.

Definition req (n : string) (t : ty) : param := Param n Required t.
Definition opt (n : string) (t : ty) : param := Param n Optional t.
Definition rest (n : string) (t : ty) : param := Param n Rest t.

(** A signature without type parameters. *)
Definition plain (ps : list param) (r : ty) : signature := Sig [] ps r.

Definition Error : ty := TRef "Error" [].
Definition RegExp : ty := TRef "RegExp" [].
Definition Promise (t : ty) : ty := TRef "Promise" [t].
Definition Record_ (k v : ty) : ty := TRef "Record" [k; v].

(** [(...args: any[]) => R] *)
Definition any_args_to (r : ty) : ty := TFun [rest "args" (TArray TAny)] r.

(** [{ [key: string]: string | number | boolean }] *)
Definition attribute_map (key : string) : ty :=
  TObj [MIndex key TString (TUnion [TString; TNumber; TBoolean])].

Definition error_callback : ty := TFun [opt "error" Error] TVoid.

Definition index_d_ts : list decl := [
  DFunction "setTransactionName" (plain [req "name" TString] TVoid);
  DFunction "getTransaction" (plain [] (TRef "TransactionHandle" []));
  DFunction "setDispatcher" (plain [req "name" TString; opt "version" TString] TVoid);
  DFunction "setControllerName" (plain [req "name" TString; req "action" TString] TVoid);
  DFunction "addCustomAttribute"
    (plain [req "key" TString; req "value" (TUnion [TString; TNumber; TBoolean])] TVoid);
  DFunction "addCustomAttributes" (plain [req "atts" (attribute_map "key")] TVoid);
  DFunction "addCustomSpanAttribute"
    (plain [req "key" TString; req "value" (TUnion [TString; TNumber; TBoolean])] TVoid);
  DFunction "addCustomSpanAttributes" (plain [req "atts" (attribute_map "key")] TVoid);
  DFunction "noticeError" (plain [req "error" Error; opt "expected" TBoolean] TVoid);
  DFunction "noticeError"
    (plain [req "error" Error;
            opt "customAttributes" (attribute_map "key");
            opt "expected" TBoolean] TVoid);
  DFunction "setErrorGroupCallback"
    (plain [req "callback"
              (TFun [req "metadata"
                       (TObj [MProp "customAttributes" false (attribute_map "key");
                              MProp "request.uri" false TString;
                              MProp "http.statusCode" false TString;
                              MProp "http.method" false TString;
                              MProp "error" true Error;
                              MProp "error.expected" false TBoolean])]
                    TString)]
           TVoid);
  DFunction "recordLogEvent" (plain [req "logEvent" (TRef "LogEvent" [])] TVoid);
  DFunction "addNamingRule"
    (plain [req "pattern" (TUnion [RegExp; TString]); req "name" TString] TVoid);
  DFunction "addIgnoringRule" (plain [req "pattern" (TUnion [RegExp; TString])] TVoid);
  DFunction "getBrowserTimingHeader"
    (plain [opt "options"
              (TObj [MProp "nonce" true TString;
                     MProp "hasToRemoveScriptWrapper" true TBoolean;
                     MProp "allowTransactionlessInjection" true TBoolean])]
           TString);
  DFunction "startSegment"
    (Sig [TParam "T" None; TParam "C" (Some (any_args_to TAny))]
         [req "name" TString;
          req "record" TBoolean;
          req "handler" (TFun [opt "cb" (TVar "C")] (TVar "T"));
          opt "callback" (TVar "C")]
         (TVar "T"));
  DFunction "createTracer"
    (Sig [TParam "T" (Some (any_args_to TAny))]
         [req "name" TString; req "handle" (TVar "T")]
         (TVar "T"));
  DFunction "startWebTransaction"
    (Sig [TParam "T" None]
         [req "url" TString; req "handle" (Promise (TVar "T"))]
         (Promise (TVar "T")));
  DFunction "startWebTransaction"
    (Sig [TParam "T" None]
         [req "url" TString; req "handle" (any_args_to (TVar "T"))]
         (TVar "T"));
  DFunction "startBackgroundTransaction"
    (Sig [TParam "T" None]
         [req "name" TString; req "handle" (Promise (TVar "T"))]
         (Promise (TVar "T")));
  DFunction "startBackgroundTransaction"
    (Sig [TParam "T" None]
         [req "name" TString; req "handle" (any_args_to (TVar "T"))]
         (TVar "T"));
  DFunction "startBackgroundTransaction"
    (Sig [TParam "T" None]
         [req "name" TString; req "group" TString; req "handle" (Promise (TVar "T"))]
         (Promise (TVar "T")));
  DFunction "startBackgroundTransaction"
    (Sig [TParam "T" None]
         [req "name" TString; req "group" TString; req "handle" (any_args_to (TVar "T"))]
         (TVar "T"));
  DFunction "endTransaction" (plain [] TVoid);
  DFunction "recordMetric"
    (plain [req "name" TString; req "value" (TUnion [TNumber; TRef "Metric" []])] TVoid);
  DFunction "incrementMetric" (plain [req "name" TString; opt "value" TNumber] TVoid);
  DFunction "recordCustomEvent"
    (plain [req "eventType" TString;
            req "attributes"
              (TObj [MIndex "keys" TString (TUnion [TBoolean; TNumber; TString])])]
           (TUnion [TUndefined; TLitFalse]));
  DConst "instrument" (TRef "Instrument" []);
  DConst "instrumentDatastore" (TRef "Instrument" []);
  DFunction "instrumentLoadedModule"
    (plain [req "moduleName" TString; req "moduleInstance" TAny] TBoolean);
  DConst "instrumentWebframework" (TRef "Instrument" []);
  DConst "instrumentMessages" (TRef "Instrument" []);
  DFunction "setUserID" (plain [req "userID" TString] TVoid);
  DFunction "shutdown" (plain [opt "cb" error_callback] TVoid);
  DFunction "shutdown"
    (plain [opt "options"
              (TObj [MProp "collectPendingData" true (TUnion [TBoolean; TUndefined]);
                     MProp "timeout" true (TUnion [TNumber; TUndefined]);
                     MProp "waitForIdle" true (TUnion [TBoolean; TUndefined])]);
            opt "cb" error_callback]
           TVoid);
  DFunction "getLinkingMetadata"
    (plain [opt "omitSupportability" TBoolean] (TRef "LinkingMetadata" []));
  DFunction "getTraceMetadata" (plain [] (TRef "TraceMetadata" []));
  DFunction "setLambdaHandler"
    (Sig [TParam "T" (Some (any_args_to TAny))] [req "handler" (TVar "T")] (TVar "T"));
  DFunction "obfuscateSql"
    (plain [req "sql" TString;
            opt "dialect"
              (TUnion [TLitString "mysql"; TLitString "postgres";
                       TLitString "cassandra"; TLitString "oracle"])]
           TString);
  DInterface "Instrument"
    [MCall [req "opts"
              (TObj [MProp "moduleName" false TString;
                     MProp "onRequire" false (TFun [] TVoid);
                     MProp "onError" true
                       (TUnion [TFun [req "err" Error] TVoid; TUndefined])])]
           TVoid;
     MCall [req "moduleName" TString;
            req "onRequire" (TFun [] TVoid);
            opt "onError" (TFun [req "err" Error] TVoid)]
           TVoid];
  DInterface "Metric"
    [MProp "count" false TNumber;
     MProp "total" false TNumber;
     MProp "min" false TNumber;
     MProp "max" false TNumber;
     MProp "sumOfSquares" false TNumber];
  DInterface "DistributedTracePayload"
    [MMethod "text" [] TString;
     MMethod "httpSafe" [] TString];
  DTypeAlias "DistributedTraceHeaders"
    (Record_ TString (TUnion [TNumber; TString; TArray TString; TUndefined]));
  DInterface "TransactionHandle"
    [MMethod "end" [opt "callback" (TFun [] TAny)] TVoid;
     MMethod "ignore" [] TVoid;
     MMethod "insertDistributedTraceHeaders"
       [req "headers" (TRef "DistributedTraceHeaders" [])] TVoid;
     MMethod "acceptDistributedTraceHeaders"
       [req "transportType" TString; req "headers" (TRef "DistributedTraceHeaders" [])]
       TVoid;
     MMethod "isSampled" [] TBoolean];
  DInterface "LinkingMetadata"
    [MProp "trace.id" true (TUnion [TString; TUndefined]);
     MProp "span.id" true (TUnion [TString; TUndefined]);
     MProp "entity.name" false TString;
     MProp "entity.type" false TString;
     MProp "entity.guid" true (TUnion [TString; TUndefined]);
     MProp "hostname" false TString];
  DInterface "LogEvent"
    [MProp "message" false TString;
     MProp "level" true (TUnion [TString; TUndefined]);
     MProp "timestamp" true (TUnion [TNumber; TUndefined]);
     MProp "error" true (TUnion [Error; TUndefined])];
  DInterface "TraceMetadata"
    [MProp "traceId" true (TUnion [TString; TUndefined]);
     MProp "spanId" true (TUnion [TString; TUndefined])];
  DFunction "withLlmCustomAttributes"
    (Sig [TParam "T" None]
         [req "attrs" (Record_ TString (TUnion [TNumber; TString; TBoolean]));
          req "cb" (any_args_to (TVar "T"))]
         (TVar "T"));
  DFunction "setLlmTokenCountCallback"
    (Sig [TParam "T" None] [req "cb" (any_args_to (TVar "T"))] (TVar "T"))
].

End Newrelic.

(** ** What a caller is checked against

    The rules below are the part of TypeScript's checking that the
    declarations of this file exercise, kept conservative: where the
    compiler's rule has cases the file never reaches (implicit index
    signatures, bivariant method parameters, inference of type arguments)
    the check refuses.  Type arguments of a generic call are given
    explicitly. *)

Module Typing.

Local Open Scope nat_scope.

Section WithFile.

Variable file : list decl.

(** The members of interface [i]: TypeScript merges all the interface
    declarations of one name. *)
Definition interface_members (i : string) : list member :=
  flat_map (fun d =>
              match d with
              | DInterface n ms => if String.eqb n i then ms else []
              | _ => []
              end) file.

Definition declares_interface (i : string) : bool :=
  existsb (fun d =>
             match d with
             | DInterface n _ => String.eqb n i
             | _ => false
             end) file.

Definition type_alias (a : string) : option ty :=
  match find (fun d => match d with
                       | DTypeAlias n _ => String.eqb n a
                       | _ => false
                       end) file with
  | Some (DTypeAlias _ t) => Some t
  | _ => None
  end.

(** The interface or alias a name stands for, if the file declares it. *)
Definition lookup_type (n : string) : option ty :=
  if declares_interface n then Some (TObj (interface_members n)) else type_alias n.

(** A named type unfolded one step.  [Record<string, V>] of the standard
    library is the object type with one string index signature; the other
    library names ([Error], [RegExp], [Promise]) stay opaque. *)
Definition resolve (t : ty) : option ty :=
  match t with
  | TRef n args =>
      match lookup_type n with
      | Some body => Some body
      | None =>
          match String.eqb n "Record", args with
          | true, [TString; v] => Some (TObj [MIndex "key" TString v])
          | _, _ => None
          end
      end
  | _ => None
  end.

(** *** Parameter lists *)

Definition is_required (p : param) : bool :=
  match param_knd p with Required => true | _ => false end.

Definition is_rest (p : param) : bool :=
  match param_knd p with Rest => true | _ => false end.

Definition min_arity (ps : list param) : nat := length (filter is_required ps).

Definition max_arity (ps : list param) : option nat :=
  if existsb is_rest ps then None else Some (length ps).

Definition arity_ok (ps : list param) (n : nat) : bool :=
  (min_arity ps <=? n) &&
  match max_arity ps with
  | None => true
  | Some m => n <=? m
  end.

(** The type expected at argument position [i]: an optional parameter also
    takes [undefined], a rest parameter [...x: E[]] takes an [E] at every
    position from its own on. *)
Fixpoint param_type_at (ps : list param) (i : nat) : option ty :=
  match ps with
  | [] => None
  | Param _ Rest t :: _ =>
      match t with TArray e => Some e | _ => None end
  | Param _ k t :: ps' =>
      match i with
      | 0 => Some (match k with Optional => TUnion [t; TUndefined] | _ => t end)
      | S j => param_type_at ps' j
      end
  end.

Definition find_member (ms : list member) (x : string) : option member :=
  find (fun m => match member_name m with
                 | Some y => String.eqb x y
                 | None => false
                 end) ms.

(** *** Assignability

    [assignable k s t]: a value of type [s] may be used where a [t] is
    expected.  [k] bounds how many times names are unfolded and type
    constructors are entered. *)
Fixpoint assignable (k : nat) (s t : ty) {struct k} : bool :=
  match k with
  | 0 => false
  | S k' =>
    ty_eqb s t ||
    match s, t with
    | _, TAny => true
    | TAny, _ => true
    | TUnion ss, _ => forallb (fun a => assignable k' a t) ss
    | _, TUnion ts => existsb (fun b => assignable k' s b) ts
    | TUndefined, TVoid => true
    | TLitFalse, TBoolean => true
    | TLitString _, TString => true
    | TArray a, TArray b => assignable k' a b
    | TFun ps r, TFun qs r' =>
        match max_arity qs with
        | None => true
        | Some m => min_arity ps <=? m
        end
        && forallb (fun i =>
                      match param_type_at ps i, param_type_at qs i with
                      | Some a, Some b => assignable k' b a
                      | _, _ => true
                      end)
                   (seq 0 (Nat.max (length ps) (length qs)))
        && match r' with
           | TVoid => true
           | _ => assignable k' r r'
           end
    | TObj ms, TObj ns =>
        forallb (fun n =>
          match n with
          | MProp x o t' =>
              match find_member ms x with
              | Some (MProp _ o' s') => (o || negb o') && assignable k' s' t'
              | Some (MMethod _ ps r) => assignable k' (TFun ps r) t'
              | _ => o
              end
          | MMethod x qs r' =>
              match find_member ms x with
              | Some (MMethod _ ps r) => assignable k' (TFun ps r) (TFun qs r')
              | Some (MProp _ false s') => assignable k' s' (TFun qs r')
              | _ => false
              end
          | MCall qs r' =>
              existsb (fun m =>
                         match m with
                         | MCall ps r => assignable k' (TFun ps r) (TFun qs r')
                         | _ => false
                         end) ms
          | MIndex _ kt vt =>
              existsb (fun m =>
                         match m with
                         | MIndex _ kt' vt' => ty_eqb kt kt' && assignable k' vt' vt
                         | _ => false
                         end) ms
          end) ns
    | TRef n xs, _ =>
        match resolve s with
        | Some body => assignable k' body t
        | None =>
            match t with
            | TRef m ys =>
                match resolve t with
                | Some _ => false
                | None =>
                    String.eqb n m &&
                    list_eqb (fun x y => assignable k' x y) xs ys
                end
            | _ => false
            end
        end
    | _, TRef _ _ =>
        match resolve t with
        | Some body => assignable k' s body
        | None => false
        end
    | _, _ => false
    end
  end.

(** The unfolding bound used for every check below; the declarations nest
    far less deeply. *)
Definition depth : nat := 24.

Definition assignable_to (s t : ty) : bool := assignable depth s t.

(** *** Calls *)

Definition bind_tparams (tps : list tparam) (targs : list ty) : option tsubst :=
  if length tps =? length targs
  then Some (combine (map tp_name tps) targs)
  else None.

Definition constraints_ok (sigma : tsubst) (tps : list tparam) (targs : list ty) : bool :=
  forallb (fun pa =>
             match tp_constraint (fst pa) with
             | None => true
             | Some c => assignable_to (snd pa) (subst sigma c)
             end)
          (combine tps targs).

(** The signature at the given type arguments: parameters and result. *)
Definition instantiate (s : signature) (targs : list ty) : option (list param * ty) :=
  match bind_tparams (sig_tparams s) targs with
  | Some sigma =>
      if constraints_ok sigma (sig_tparams s) targs
      then Some (map (subst_param sigma) (sig_params s), subst sigma (sig_ret s))
      else None
  | None => None
  end.

Definition args_ok (ps : list param) (args : list ty) : bool :=
  arity_ok ps (length args) &&
  forallb (fun ia =>
             match param_type_at ps (fst ia) with
             | Some t => assignable_to (snd ia) t
             | None => false
             end)
          (combine (seq 0 (length args)) args).

(** The result type of calling one signature, when the call type-checks. *)
Definition apply_sig (s : signature) (targs args : list ty) : option ty :=
  match instantiate s targs with
  | Some (ps, r) => if args_ok ps args then Some r else None
  | None => None
  end.

(** Overload resolution: the first signature, in declaration order, that
    the call type-checks against. *)
Fixpoint call (sigs : list signature) (targs args : list ty) : option ty :=
  match sigs with
  | [] => None
  | s :: sigs' =>
      match apply_sig s targs args with
      | Some r => Some r
      | None => call sigs' targs args
      end
  end.

(** *** Looking declarations up *)

Definition call_signatures (t : ty) : list signature :=
  match t with
  | TFun ps r => [Sig [] ps r]
  | TObj ms =>
      flat_map (fun m => match m with
                         | MCall ps r => [Sig [] ps r]
                         | _ => []
                         end) ms
  | _ => []
  end.

(** Every signature an exported name can be called with: the overloads of
    a function, or the call signatures of a constant's type. *)
Definition overloads (f : string) : list signature :=
  flat_map (fun d =>
              match d with
              | DFunction n s => if String.eqb n f then [s] else []
              | DConst n t =>
                  if String.eqb n f
                  then call_signatures (match resolve t with Some b => b | None => t end)
                  else []
              | _ => []
              end) file.

(** The exported functions with their signatures, one entry per overload. *)
Definition functions : list (string * signature) :=
  flat_map (fun d => match d with
                     | DFunction n s => [(n, s)]
                     | _ => []
                     end) file.

(** The exported constants with their declared types. *)
Definition constants : list (string * ty) :=
  flat_map (fun d => match d with
                     | DConst n t => [(n, t)]
                     | _ => []
                     end) file.

(** The signatures of method [m] of interface [i]. *)
Definition method_signatures (i m : string) : list signature :=
  flat_map (fun mem => match mem with
                       | MMethod n ps r => if String.eqb n m then [Sig [] ps r] else []
                       | _ => []
                       end) (interface_members i).

End WithFile.

End Typing.

(** ** The module as its callers see it *)

Module Api.

Import Newrelic Typing.

(** The type of a transaction handle, [TransactionHandle]. *)
Definition handle : ty := TRef "TransactionHandle" [].

(** The signatures [index.d.ts] declares for an exported name. *)
Definition declared (f : string) : list signature := overloads index_d_ts f.

(** Calling an exported name: overload resolution over [declared]. *)
Definition call_export (f : string) (targs args : list ty) : option ty :=
  call index_d_ts (declared f) targs args.

(** Calling a method of a declared interface. *)
Definition call_method (i m : string) (args : list ty) : option ty :=
  call index_d_ts (method_signatures index_d_ts i m) [] args.

(** [f(name, handler)] type-checks, for a handler that is a function
    returning [T] or a promise of [T], and gives back what the handler
    yields. *)
Definition accepts_name_handler (f : string) : Prop :=
  forall T : ty,
    call_export f [T] [TString; any_args_to T] = Some T /\
    call_export f [T] [TString; Promise T] = Some (Promise T).

(** [f(name, group, handler)] type-checks likewise. *)
Definition accepts_name_group_handler (f : string) : Prop :=
  forall T : ty,
    call_export f [T] [TString; TString; any_args_to T] = Some T /\
    call_export f [T] [TString; TString; Promise T] = Some (Promise T).

(** The exported functions whose name satisfies [p], each overload with its
    declared result type, in file order. *)
Definition result_types (p : string -> bool) : list (string * ty) :=
  map (fun ns => (fst ns, sig_ret (snd ns)))
      (filter (fun ns => p (fst ns)) (functions index_d_ts)).

Definition ends_with (suffix s : string) : bool :=
  String.eqb (substring (String.length s - String.length suffix)
                        (String.length suffix) s)
             suffix
  && (String.length suffix <=? String.length s)%nat.

(** The functions that record something with the agent: [record...]. *)
Definition is_recording_function (n : string) : bool := String.prefix "record" n.

(** The functions that register a callback with the agent: [set...Callback]. *)
Definition is_callback_setter (n : string) : bool :=
  String.prefix "set" n && ends_with "Callback" n.

(** The exported constants, each with the result types of the call
    signatures of its type. *)
Definition constant_result_types : list (string * ty * list ty) :=
  map (fun c => (fst c, snd c, map sig_ret (declared (fst c))))
      (constants index_d_ts).

(** The five fields of a pre-aggregated metric, written as an object type. *)
Definition metric_record : ty :=
  TObj [MProp "count" false TNumber;
        MProp "total" false TNumber;
        MProp "min" false TNumber;
        MProp "max" false TNumber;
        MProp "sumOfSquares" false TNumber].

(** The value types of a distributed-trace header map. *)
Definition header_value : ty := TUnion [TNumber; TString; TArray TString; TUndefined].

(** [Record<string, number | string | boolean>], the attributes bound by
    [withLlmCustomAttributes]. *)
Definition llm_attributes : ty := Record_ TString (TUnion [TNumber; TString; TBoolean]).

(** An AWS Lambda handler, [(event: any, context: any) => Promise<any>]. *)
Definition lambda_handler : ty :=
  TFun [req "event" TAny; req "context" TAny] (Promise TAny).

End Api.

(** ** Syntactic checks on a declaration file *)

Module Lint.

Import Newrelic Typing Api.

(** The type names an expression refers to. *)
Fixpoint ty_refs (t : ty) {struct t} : list string :=
  match t with
  | TRef n args => n :: flat_map ty_refs args
  | TArray e => ty_refs e
  | TUnion alts => flat_map ty_refs alts
  | TFun ps r => flat_map param_refs ps ++ ty_refs r
  | TObj ms => flat_map member_refs ms
  | _ => []
  end
with param_refs (p : param) {struct p} : list string :=
  match p with
  | Param _ _ t => ty_refs t
  end
with member_refs (m : member) {struct m} : list string :=
  match m with
  | MProp _ _ t => ty_refs t
  | MMethod _ ps r | MCall ps r => flat_map param_refs ps ++ ty_refs r
  | MIndex _ kt vt => ty_refs kt ++ ty_refs vt
  end.

(** The type parameters an expression mentions. *)
Fixpoint ty_vars (t : ty) {struct t} : list string :=
  match t with
  | TVar x => [x]
  | TRef _ args => flat_map ty_vars args
  | TArray e => ty_vars e
  | TUnion alts => flat_map ty_vars alts
  | TFun ps r => flat_map param_vars ps ++ ty_vars r
  | TObj ms => flat_map member_vars ms
  | _ => []
  end
with param_vars (p : param) {struct p} : list string :=
  match p with
  | Param _ _ t => ty_vars t
  end
with member_vars (m : member) {struct m} : list string :=
  match m with
  | MProp _ _ t => ty_vars t
  | MMethod _ ps r | MCall ps r => flat_map param_vars ps ++ ty_vars r
  | MIndex _ kt vt => ty_vars kt ++ ty_vars vt
  end.

(** Every parameter list written inside an expression. *)
Fixpoint ty_param_lists (t : ty) {struct t} : list (list param) :=
  match t with
  | TRef _ args => flat_map ty_param_lists args
  | TArray e => ty_param_lists e
  | TUnion alts => flat_map ty_param_lists alts
  | TFun ps r => ps :: flat_map param_param_lists ps ++ ty_param_lists r
  | TObj ms => flat_map member_param_lists ms
  | _ => []
  end
with param_param_lists (p : param) {struct p} : list (list param) :=
  match p with
  | Param _ _ t => ty_param_lists t
  end
with member_param_lists (m : member) {struct m} : list (list param) :=
  match m with
  | MProp _ _ t => ty_param_lists t
  | MMethod _ ps r | MCall ps r =>
      ps :: flat_map param_param_lists ps ++ ty_param_lists r
  | MIndex _ kt vt => ty_param_lists kt ++ ty_param_lists vt
  end.

Definition constraint_types (s : signature) : list ty :=
  flat_map (fun tp => match tp_constraint tp with
                      | Some c => [c]
                      | None => []
                      end) (sig_tparams s).

(** The type names a declaration refers to. *)
Definition decl_refs (d : decl) : list string :=
  match d with
  | DFunction _ s =>
      flat_map ty_refs (constraint_types s)
      ++ flat_map param_refs (sig_params s) ++ ty_refs (sig_ret s)
  | DConst _ t | DTypeAlias _ t => ty_refs t
  | DInterface _ ms => flat_map member_refs ms
  end.

(** The type parameters a declaration mentions without binding them. *)
Definition decl_unbound_vars (d : decl) : list string :=
  match d with
  | DFunction _ s =>
      filter (fun x => negb (existsb (String.eqb x) (map tp_name (sig_tparams s))))
             (flat_map ty_vars (constraint_types s)
              ++ flat_map param_vars (sig_params s) ++ ty_vars (sig_ret s))
  | DConst _ t | DTypeAlias _ t => ty_vars t
  | DInterface _ ms => flat_map member_vars ms
  end.

(** Every parameter list of a declaration, its own and the nested ones. *)
Definition decl_param_lists (d : decl) : list (list param) :=
  match d with
  | DFunction _ s =>
      flat_map ty_param_lists (constraint_types s)
      ++ sig_params s :: flat_map param_param_lists (sig_params s)
      ++ ty_param_lists (sig_ret s)
  | DConst _ t | DTypeAlias _ t => ty_param_lists t
  | DInterface _ ms => flat_map member_param_lists ms
  end.

(** The interfaces and aliases a file declares. *)
Definition declared_types (file : list decl) : list string :=
  flat_map (fun d => match d with
                     | DInterface n _ | DTypeAlias n _ => [n]
                     | _ => []
                     end) file.

(** The names taken from TypeScript's standard library. *)
Definition library_types : list string := ["Error"; "RegExp"; "Promise"; "Record"].

(** The declared types that no declaration of the file refers to. *)
Definition unreferenced_types (file : list decl) : list string :=
  filter (fun n => negb (existsb (fun d => existsb (String.eqb n) (decl_refs d)) file))
         (declared_types file).

(** A parameter list is in order when no required parameter follows an
    optional one and a rest parameter, of array type, comes last. *)
Fixpoint in_order (seen_optional : bool) (ps : list param) : bool :=
  match ps with
  | [] => true
  | Param _ Required _ :: ps' => negb seen_optional && in_order false ps'
  | Param _ Optional _ :: ps' => in_order true ps'
  | Param _ Rest t :: ps' =>
      match t, ps' with
      | TArray _, [] => true
      | _, _ => false
      end
  end.

(** The exported functions with an overload that takes no argument. *)
Definition callable_without_arguments (file : list decl) : list string :=
  map fst (filter (fun ns => arity_ok (sig_params (snd ns)) 0) (functions file)).

(** A log event with [message] and any of the optional fields. *)
Definition log_event (level timestamp error : bool) : ty :=
  TObj ([MProp "message" false TString]
        ++ (if level then [MProp "level" false TString] else [])
        ++ (if timestamp then [MProp "timestamp" false TNumber] else [])
        ++ (if error then [MProp "error" false Error] else [])).

(** The same without [message]. *)
Definition log_event_without_message (level timestamp error : bool) : ty :=
  TObj ((if level then [MProp "level" false TString] else [])
        ++ (if timestamp then [MProp "timestamp" false TNumber] else [])
        ++ (if error then [MProp "error" false Error] else [])).

(** An object type with the given required string properties. *)
Definition string_fields (names : list string) : ty :=
  TObj (map (fun n => MProp n false TString) names).

(** The SQL dialects [obfuscateSql] names. *)
Definition dialects : list string := ["mysql"; "postgres"; "cassandra"; "oracle"].

(** The four constants that register instrumentation. *)
Definition instrumenters : list string :=
  ["instrument"; "instrumentDatastore"; "instrumentWebframework"; "instrumentMessages"].

(** The options object of the first call form of [Instrument]. *)
Definition instrument_opts (with_on_error : bool) : ty :=
  TObj ([MProp "moduleName" false TString;
         MProp "onRequire" false (TFun [] TVoid)]
        ++ (if with_on_error
            then [MProp "onError" false (TFun [req "err" Error] TVoid)]
            else [])).

(** All of [names] are among [allowed]. *)
Definition names_among (allowed names : list string) : bool :=
  forallb (fun n => existsb (String.eqb n) allowed) names.

(** The metadata [setErrorGroupCallback] hands to its callback. *)
Definition error_metadata : ty :=
  TObj [MProp "customAttributes" false (attribute_map "key");
        MProp "request.uri" false TString;
        MProp "http.statusCode" false TString;
        MProp "http.method" false TString;
        MProp "error" true Error;
        MProp "error.expected" false TBoolean].

(** The type of the headers map, [DistributedTraceHeaders]. *)
Definition trace_headers : ty := TRef "DistributedTraceHeaders" [].

End Lint.

(** ** General facts about the checking rules *)

Module Facts.

Import Typing.
Local Open Scope nat_scope.

Lemma list_eqb_refl {A : Type} (eqb : A -> A -> bool) (xs : list A) :
  Forall (fun x => eqb x x = true) xs -> list_eqb eqb xs xs = true.
Proof.
  induction 1 as [|x xs Hx _ IH]; simpl.
  - reflexivity.
  - now rewrite Hx, IH.
Qed.

Lemma kind_eqb_refl (k : param_kind) : kind_eqb k k = true.
Proof. now destruct k. Qed.

Lemma ty_eqb_refl (t : ty) : ty_eqb t t = true
with param_eqb_refl (p : param) : param_eqb p p = true
with member_eqb_refl (m : member) : member_eqb m m = true.
Proof.
  - destruct t as [| | | | | | |s|x|n args|e|alts|ps r|ms]; simpl;
      try reflexivity; try apply String.eqb_refl.
    + rewrite String.eqb_refl; simpl.
      apply list_eqb_refl.
      induction args; constructor; [apply ty_eqb_refl | assumption].
    + apply ty_eqb_refl.
    + apply list_eqb_refl.
      induction alts; constructor; [apply ty_eqb_refl | assumption].
    + rewrite ty_eqb_refl, andb_true_r.
      apply list_eqb_refl.
      induction ps; constructor; [apply param_eqb_refl | assumption].
    + apply list_eqb_refl.
      induction ms; constructor; [apply member_eqb_refl | assumption].
  - destruct p as [n k t]; simpl.
    now rewrite String.eqb_refl, kind_eqb_refl, ty_eqb_refl.
  - assert (Hps : forall ps, list_eqb param_eqb ps ps = true).
    { intro ps; apply list_eqb_refl.
      induction ps; constructor; [apply param_eqb_refl | assumption]. }
    destruct m as [x o t|x ps r|ps r|k kt vt]; simpl;
      rewrite ?String.eqb_refl, ?Bool.eqb_reflx, ?Hps, ?ty_eqb_refl; reflexivity.
Qed.

Section WithFile.

Variable file : list decl.

(** Every type is assignable to itself. *)
Lemma assignable_refl (k : nat) (t : ty) : assignable file (S k) t t = true.
Proof. simpl. now rewrite ty_eqb_refl. Qed.

(** [any] is assignable to every type, and every type to [any]. *)
Lemma assignable_any_l (k : nat) (t : ty) : assignable file (S k) TAny t = true.
Proof. destruct t; reflexivity. Qed.

Lemma assignable_any_r (k : nat) (s : ty) : assignable file (S k) s TAny = true.
Proof. destruct s; simpl; rewrite ?orb_true_r; reflexivity. Qed.

Lemma assignable_to_refl (t : ty) : assignable_to file t t = true.
Proof. apply assignable_refl. Qed.

(** A function type, whatever its parameters, is assignable to
    [(...args: any[]) => r'] as soon as its result is assignable to [r']
    (or [r'] is [void]). *)
Lemma fun_assignable_any_args (k : nat) (ps : list param) (r r' : ty) (n : string) :
  match r' with TVoid => true | _ => assignable file (S k) r r' end = true ->
  assignable file (S (S k)) (TFun ps r) (TFun [Param n Rest (TArray TAny)] r') = true.
Proof.
  intro Hr.
  change (assignable file (S (S k)) (TFun ps r) (TFun [Param n Rest (TArray TAny)] r'))
    with (ty_eqb (TFun ps r) (TFun [Param n Rest (TArray TAny)] r') ||
          (match max_arity [Param n Rest (TArray TAny)] with
           | None => true
           | Some m => min_arity ps <=? m
           end
           && forallb (fun i =>
                match param_type_at ps i,
                      param_type_at [Param n Rest (TArray TAny)] i with
                | Some a, Some b => assignable file (S k) b a
                | _, _ => true
                end)
              (seq 0 (Nat.max (length ps) (length [Param n Rest (TArray TAny)])))
           && match r' with
              | TVoid => true
              | _ => assignable file (S k) r r'
              end)).
  rewrite Hr, andb_true_r.
  apply orb_true_iff; right.
  apply andb_true_iff; split; [reflexivity|].
  apply forallb_forall; intros i _.
  destruct (param_type_at ps i); [|reflexivity].
  simpl param_type_at. apply assignable_any_l.
Qed.

(** Every function type meets the constraint [T extends (...args: any[]) => any]. *)
Lemma function_type_meets_constraint (ps : list param) (r : ty) :
  assignable_to file (TFun ps r) (TFun [Param "args" Rest (TArray TAny)] TAny) = true.
Proof.
  unfold assignable_to, depth.
  apply fun_assignable_any_args.
  apply assignable_any_r.
Qed.

(** A function returning [r] may be passed where [(...args: any[]) => r] is
    expected. *)
Lemma function_type_fits_any_args (ps : list param) (r : ty) :
  assignable_to file (TFun ps r) (TFun [Param "args" Rest (TArray TAny)] r) = true.
Proof.
  unfold assignable_to, depth.
  apply fun_assignable_any_args.
  rewrite assignable_refl. now destruct r.
Qed.

(** *** Unfolding a call *)

Lemma call_here (s : signature) (sigs : list signature) (targs args : list ty) (r : ty) :
  apply_sig file s targs args = Some r ->
  call file (s :: sigs) targs args = Some r.
Proof. simpl. now intros ->. Qed.

Lemma call_next (s : signature) (sigs : list signature) (targs args : list ty) :
  apply_sig file s targs args = None ->
  call file (s :: sigs) targs args = call file sigs targs args.
Proof. simpl. now intros ->. Qed.

Lemma apply_sig_some (s : signature) (targs args : list ty) (ps : list param) (r : ty) :
  instantiate file s targs = Some (ps, r) ->
  args_ok file ps args = true ->
  apply_sig file s targs args = Some r.
Proof. unfold apply_sig. now intros -> ->. Qed.

Lemma apply_sig_bad_args (s : signature) (targs args : list ty) (ps : list param) (r : ty) :
  instantiate file s targs = Some (ps, r) ->
  args_ok file ps args = false ->
  apply_sig file s targs args = None.
Proof. unfold apply_sig. now intros -> ->. Qed.

Lemma args_ok_bad_arity (ps : list param) (args : list ty) :
  arity_ok ps (length args) = false -> args_ok file ps args = false.
Proof. unfold args_ok. now intros ->. Qed.

(** The arguments of a call, paired with their positions. *)
Lemma in_combine_seq (A : Type) (xs : list A) (s i : nat) (a : A) :
  In (i, a) (combine (seq s (length xs)) xs) <->
  s <= i /\ nth_error xs (i - s) = Some a.
Proof.
  revert s; induction xs as [|x xs IH]; intro s; simpl.
  - split; [tauto|]. intros [_ H]. now destruct (i - s).
  - rewrite IH. split.
    + intros [[= <- <-]|[Hle Hn]].
      * split; [lia|]. now rewrite Nat.sub_diag.
      * split; [lia|]. now replace (i - s) with (S (i - S s)) by lia.
    + intros [Hle Hn].
      destruct (Nat.eq_dec s i) as [<-|Hne].
      * left. rewrite Nat.sub_diag in Hn. simpl in Hn. congruence.
      * right. split; [lia|].
        now replace (i - s) with (S (i - S s)) in Hn by lia.
Qed.

(** A call is well-typed when its arity fits and every argument is
    assignable to the type expected at its position. *)
Lemma args_ok_intro (ps : list param) (args : list ty) :
  arity_ok ps (length args) = true ->
  (forall i a, nth_error args i = Some a ->
     exists t, param_type_at ps i = Some t /\ assignable_to file a t = true) ->
  args_ok file ps args = true.
Proof.
  intros Ha Hargs. unfold args_ok. rewrite Ha. simpl.
  apply forallb_forall. intros [i a] Hin.
  apply in_combine_seq in Hin. destruct Hin as [_ Hn].
  rewrite Nat.sub_0_r in Hn.
  destruct (Hargs i a Hn) as (t & Ht & Hat). simpl. now rewrite Ht.
Qed.

(** A call is ill-typed as soon as one argument does not fit. *)
Lemma args_ok_reject (ps : list param) (args : list ty) (i : nat) (a t : ty) :
  nth_error args i = Some a ->
  param_type_at ps i = Some t ->
  assignable_to file a t = false ->
  args_ok file ps args = false.
Proof.
  intros Hn Ht Hat. unfold args_ok.
  apply andb_false_iff. right.
  apply not_true_is_false. intro Hall.
  rewrite forallb_forall in Hall.
  assert (Hin : In (i, a) (combine (seq 0 (length args)) args)).
  { apply in_combine_seq. split; [lia|]. now rewrite Nat.sub_0_r. }
  specialize (Hall _ Hin). simpl in Hall.
  rewrite Ht in Hall. congruence.
Qed.

(** Instantiating a signature with one type parameter. *)
Lemma instantiate_one_constrained (n : string) (c : ty) (ps : list param) (r T : ty) :
  assignable_to file T (subst [(n, T)] c) = true ->
  instantiate file (Sig [TParam n (Some c)] ps r) [T]
  = Some (map (subst_param [(n, T)]) ps, subst [(n, T)] r).
Proof.
  intro H. unfold instantiate, bind_tparams, constraints_ok. simpl.
  now rewrite H.
Qed.

Lemma instantiate_unmet_constraint (n : string) (c : ty) (ps : list param) (r T : ty) :
  assignable_to file T (subst [(n, T)] c) = false ->
  instantiate file (Sig [TParam n (Some c)] ps r) [T] = None.
Proof.
  intro H. unfold instantiate, bind_tparams, constraints_ok. simpl.
  now rewrite H.
Qed.

(** A function type is not assignable to a library type that stays opaque. *)
Lemma fun_not_assignable_opaque (k : nat) (ps : list param) (r : ty)
      (n : string) (xs : list ty) :
  resolve file (TRef n xs) = None ->
  assignable file k (TFun ps r) (TRef n xs) = false.
Proof.
  intro Hn. destruct k as [|k]; [reflexivity|].
  change (assignable file (S k) (TFun ps r) (TRef n xs))
    with (ty_eqb (TFun ps r) (TRef n xs) ||
          match resolve file (TRef n xs) with
          | Some body => assignable file k (TFun ps r) body
          | None => false
          end).
  now rewrite Hn.
Qed.

End WithFile.

Arguments assignable_to : simpl never.

End Facts.

(** ** The declared surface of the module *)

Module Surface.

Import Newrelic Typing Api Facts.

(** One argument against the type expected at its position. *)
Ltac fits :=
  first [ apply assignable_to_refl
        | apply function_type_fits_any_args
        | reflexivity ].

(** [args_ok file ps args = true], argument by argument. *)
Ltac accept_args :=
  apply args_ok_intro;
  [ reflexivity
  | let i := fresh "i" in
    let a := fresh "a" in
    let Hi := fresh "Hi" in
    intros i a Hi;
    repeat (destruct i as [|i]; simpl in Hi; [injection Hi as <- | ]);
    [ eexists; split; [reflexivity | fits] .. | destruct i; discriminate ] ].

(** The overload at the head of the list takes the call. *)
Ltac take_overload qs res :=
  apply call_here;
  apply apply_sig_some with (ps := qs) (r := res); [reflexivity | accept_args].

(** The overload at the head of the list rejects the call for its arity. *)
Ltac skip_by_arity qs res :=
  rewrite call_next;
  [| apply apply_sig_bad_args with (ps := qs) (r := res);
     [reflexivity | apply args_ok_bad_arity; reflexivity]].

(** The overload at the head of the list expects a promise where argument
    [n] is a function. *)
Ltac skip_function_for_promise qs res n :=
  rewrite call_next;
  [| apply apply_sig_bad_args with (ps := qs) (r := res);
     [ reflexivity
     | eapply args_ok_reject with (i := n);
       [ reflexivity | reflexivity
       | apply fun_not_assignable_opaque; reflexivity ] ] ].

(** C1: the TransactionHandle interface has exactly the five members end,
    ignore, insertDistributedTraceHeaders, acceptDistributedTraceHeaders and
    isSampled, every one of them a method, and getTransaction, called with
    no argument, is declared to return a TransactionHandle. *)
Theorem TransactionHandle_capabilities :
  map member_name (interface_members index_d_ts "TransactionHandle")
    = [Some "end"; Some "ignore"; Some "insertDistributedTraceHeaders";
       Some "acceptDistributedTraceHeaders"; Some "isSampled"]
  /\ forallb is_method (interface_members index_d_ts "TransactionHandle") = true
  /\ declared "getTransaction" = [plain [] handle]
  /\ call_export "getTransaction" [] [] = Some handle.
Proof. repeat split; vm_compute; reflexivity. Qed.

(** C2, as the claim states it, fails: the handle getTransaction returns is
    not accepted as an argument of endTransaction. *)
Lemma endTransaction_rejects_handle :
  ~ (exists h r,
        call_export "getTransaction" [] [] = Some h /\
        call_export "endTransaction" [] [h] = Some r).
Proof.
  intros (h & r & Hh & Hr).
  vm_compute in Hh. injection Hh as <-.
  vm_compute in Hr. discriminate.
Qed.

(** C2, amended: endTransaction has one signature, without parameters and
    returning void, so a call type-checks exactly when it passes no argument;
    a TransactionHandle is ended through its own method end, which takes
    nothing but an optional callback and returns void. *)
Theorem endTransaction_takes_no_argument :
  declared "endTransaction" = [plain [] TVoid]
  /\ (forall args,
        call_export "endTransaction" [] args
        = match args with [] => Some TVoid | _ :: _ => None end)
  /\ method_signatures index_d_ts "TransactionHandle" "end"
     = [plain [opt "callback" (TFun [] TAny)] TVoid]
  /\ call_method "TransactionHandle" "end" [] = Some TVoid
  /\ call_method "TransactionHandle" "end" [TFun [] TAny] = Some TVoid.
Proof.
  split; [reflexivity|].
  split; [|repeat split; vm_compute; reflexivity].
  intros [|a args]; [reflexivity|].
  unfold call_export.
  replace (declared "endTransaction") with [plain [] TVoid] by reflexivity.
  rewrite call_next; [reflexivity|].
  apply apply_sig_bad_args with (ps := []) (r := TVoid); [reflexivity|].
  now apply args_ok_bad_arity.
Qed.

(** C3, as the claim states it, fails: startWebTransaction has no form with
    a group between the name and the handler. *)
Lemma startWebTransaction_has_no_group_form :
  ~ (forall f,
        In f ["startWebTransaction"; "startBackgroundTransaction"] ->
        accepts_name_handler f /\ accepts_name_group_handler f).
Proof.
  intro H.
  destruct (H "startWebTransaction" (or_introl eq_refl)) as [_ Hg].
  destruct (Hg TNumber) as [Hf _].
  vm_compute in Hf. discriminate.
Qed.

(** The overloads of the two transaction starters, as declared. *)
Lemma declared_startWebTransaction :
  declared "startWebTransaction"
  = [Sig [TParam "T" None]
         [req "url" TString; req "handle" (Promise (TVar "T"))]
         (Promise (TVar "T"));
     Sig [TParam "T" None]
         [req "url" TString; req "handle" (any_args_to (TVar "T"))]
         (TVar "T")].
Proof. reflexivity. Qed.

Lemma declared_startBackgroundTransaction :
  declared "startBackgroundTransaction"
  = [Sig [TParam "T" None]
         [req "name" TString; req "handle" (Promise (TVar "T"))]
         (Promise (TVar "T"));
     Sig [TParam "T" None]
         [req "name" TString; req "handle" (any_args_to (TVar "T"))]
         (TVar "T");
     Sig [TParam "T" None]
         [req "name" TString; req "group" TString; req "handle" (Promise (TVar "T"))]
         (Promise (TVar "T"));
     Sig [TParam "T" None]
         [req "name" TString; req "group" TString; req "handle" (any_args_to (TVar "T"))]
         (TVar "T")].
Proof. reflexivity. Qed.

(** C3, amended: startBackgroundTransaction declares the (name, handle)
    form and, as overloads of their own, the (name, group, handle) form with
    a group of type string; startWebTransaction declares the (url, handle)
    form only, and no call of it with three arguments type-checks.  In each
    form the handle is a promise or a function. *)
Theorem group_form_only_for_background_transactions :
  map sig_params (declared "startWebTransaction")
    = [[req "url" TString; req "handle" (Promise (TVar "T"))];
       [req "url" TString; req "handle" (any_args_to (TVar "T"))]]
  /\ map sig_params (declared "startBackgroundTransaction")
    = [[req "name" TString; req "handle" (Promise (TVar "T"))];
       [req "name" TString; req "handle" (any_args_to (TVar "T"))];
       [req "name" TString; req "group" TString; req "handle" (Promise (TVar "T"))];
       [req "name" TString; req "group" TString; req "handle" (any_args_to (TVar "T"))]]
  /\ accepts_name_handler "startWebTransaction"
  /\ accepts_name_handler "startBackgroundTransaction"
  /\ accepts_name_group_handler "startBackgroundTransaction"
  /\ (forall T a b c, call_export "startWebTransaction" [T] [a; b; c] = None).
Proof.
  do 2 (split; [reflexivity|]).
  split; [|split; [|split; [|intros T a b c; reflexivity]]];
    intro T; split; unfold call_export;
    rewrite ?declared_startWebTransaction, ?declared_startBackgroundTransaction.
  - skip_function_for_promise
      [req "url" TString; req "handle" (Promise T)] (Promise T) 1.
    take_overload [req "url" TString; req "handle" (any_args_to T)] T.
  - take_overload [req "url" TString; req "handle" (Promise T)] (Promise T).
  - skip_function_for_promise
      [req "name" TString; req "handle" (Promise T)] (Promise T) 1.
    take_overload [req "name" TString; req "handle" (any_args_to T)] T.
  - take_overload [req "name" TString; req "handle" (Promise T)] (Promise T).
  - skip_by_arity [req "name" TString; req "handle" (Promise T)] (Promise T).
    skip_by_arity [req "name" TString; req "handle" (any_args_to T)] T.
    skip_function_for_promise
      [req "name" TString; req "group" TString; req "handle" (Promise T)]
      (Promise T) 2.
    take_overload [req "name" TString; req "group" TString;
                   req "handle" (any_args_to T)] T.
  - skip_by_arity [req "name" TString; req "handle" (Promise T)] (Promise T).
    skip_by_arity [req "name" TString; req "handle" (any_args_to T)] T.
    take_overload [req "name" TString; req "group" TString; req "handle" (Promise T)]
                  (Promise T).
Qed.

(** C4: Metric is a record of exactly the five fields count, total, min,
    max and sumOfSquares, each required and of type number, and the value
    parameter of recordMetric is declared number | Metric: a call type-checks
    with a number, with a Metric and with a record of the five number fields,
    not with a string or with a record that lacks a field. *)
Theorem Metric_fields_and_recordMetric_value :
  interface_members index_d_ts "Metric"
    = [MProp "count" false TNumber;
       MProp "total" false TNumber;
       MProp "min" false TNumber;
       MProp "max" false TNumber;
       MProp "sumOfSquares" false TNumber]
  /\ declared "recordMetric"
     = [plain [req "name" TString;
               req "value" (TUnion [TNumber; TRef "Metric" []])] TVoid]
  /\ call_export "recordMetric" [] [TString; TNumber] = Some TVoid
  /\ call_export "recordMetric" [] [TString; TRef "Metric" []] = Some TVoid
  /\ call_export "recordMetric" [] [TString; metric_record] = Some TVoid
  /\ call_export "recordMetric" [] [TString; TString] = None
  /\ call_export "recordMetric" [] [TString; TObj [MProp "count" false TNumber]] = None.
Proof. repeat split; vm_compute; reflexivity. Qed.

(** C5: DistributedTraceHeaders is Record<string, number | string | string[]
    | undefined>, a map from a string header name to a header value, and
    insertDistributedTraceHeaders of TransactionHandle has one signature,
    taking one such map and returning void: the call yields no value, which
    leaves the map it was passed as the only carrier of its result. *)
Theorem insertDistributedTraceHeaders_takes_map_returns_void :
  type_alias index_d_ts "DistributedTraceHeaders" = Some (Record_ TString header_value)
  /\ resolve index_d_ts (Record_ TString header_value)
     = Some (TObj [MIndex "key" TString header_value])
  /\ method_signatures index_d_ts "TransactionHandle" "insertDistributedTraceHeaders"
     = [plain [req "headers" (TRef "DistributedTraceHeaders" [])] TVoid]
  /\ call_method "TransactionHandle" "insertDistributedTraceHeaders"
        [TRef "DistributedTraceHeaders" []] = Some TVoid
  /\ map (fun v => call_method "TransactionHandle" "insertDistributedTraceHeaders"
                      [Record_ TString v])
         [TNumber; TString; TArray TString; TUndefined; header_value]
     = [Some TVoid; Some TVoid; Some TVoid; Some TVoid; Some TVoid]
  /\ call_method "TransactionHandle" "insertDistributedTraceHeaders" [] = None
  /\ call_method "TransactionHandle" "insertDistributedTraceHeaders"
        [Record_ TString TBoolean] = None.
Proof. repeat split; vm_compute; reflexivity. Qed.

(** The one signature of setLambdaHandler. *)
Lemma declared_setLambdaHandler :
  declared "setLambdaHandler"
  = [Sig [TParam "T" (Some (any_args_to TAny))] [req "handler" (TVar "T")] (TVar "T")].
Proof. reflexivity. Qed.

(** setLambdaHandler at a type argument that meets its constraint. *)
Lemma setLambdaHandler_call (T : ty) :
  assignable_to index_d_ts T (any_args_to TAny) = true ->
  call_export "setLambdaHandler" [T] [T] = Some T.
Proof.
  intro HT. unfold call_export. rewrite declared_setLambdaHandler.
  apply call_here.
  apply apply_sig_some with (ps := [req "handler" T]) (r := T).
  - apply instantiate_one_constrained. exact HT.
  - accept_args.
Qed.

(** C6: setLambdaHandler has one signature, <T extends (...args: any[]) =>
    any>(handler: T): T; for every type T that meets the constraint, that is
    for every function type, the call with a handler of type T type-checks
    and its result has the same type T. *)
Theorem setLambdaHandler_preserves_signature (T : ty) :
  assignable_to index_d_ts T (any_args_to TAny) = true ->
  declared "setLambdaHandler"
    = [Sig [TParam "T" (Some (any_args_to TAny))] [req "handler" (TVar "T")] (TVar "T")]
  /\ call_export "setLambdaHandler" [T] [T] = Some T.
Proof.
  intro HT. split; [reflexivity | now apply setLambdaHandler_call].
Qed.

(** C6 at the type of an AWS Lambda handler, [(event: any, context: any) =>
    Promise<any>], which meets the constraint. *)
Lemma setLambdaHandler_preserves_signature_witness :
  assignable_to index_d_ts lambda_handler (any_args_to TAny) = true
  /\ declared "setLambdaHandler"
     = [Sig [TParam "T" (Some (any_args_to TAny))] [req "handler" (TVar "T")] (TVar "T")]
  /\ call_export "setLambdaHandler" [lambda_handler] [lambda_handler]
     = Some lambda_handler.
Proof.
  split; [reflexivity|].
  apply (setLambdaHandler_preserves_signature lambda_handler). reflexivity.
Defined.

(** Every function type is a type argument setLambdaHandler takes, and a
    type that is not a function, such as number, is not. *)
Lemma setLambdaHandler_function_types (ps : list param) (r : ty) :
  call_export "setLambdaHandler" [TFun ps r] [TFun ps r] = Some (TFun ps r).
Proof. apply setLambdaHandler_call, function_type_meets_constraint. Qed.

Lemma setLambdaHandler_rejects_number :
  call_export "setLambdaHandler" [TNumber] [TNumber] = None.
Proof. reflexivity. Qed.

(** The one signature of withLlmCustomAttributes. *)
Lemma declared_withLlmCustomAttributes :
  declared "withLlmCustomAttributes"
  = [Sig [TParam "T" None]
         [req "attrs" llm_attributes; req "cb" (any_args_to (TVar "T"))]
         (TVar "T")].
Proof. reflexivity. Qed.

(** C7: withLlmCustomAttributes has one signature, <T>(attrs, cb: (...args:
    any[]) => T): T; for every type T, the call with a callback returning T,
    whatever the callback's parameters, type-checks and has result type T. *)
Theorem withLlmCustomAttributes_returns_callback_result :
  declared "withLlmCustomAttributes"
    = [Sig [TParam "T" None]
           [req "attrs" llm_attributes; req "cb" (any_args_to (TVar "T"))]
           (TVar "T")]
  /\ (forall T : ty,
        call_export "withLlmCustomAttributes" [T] [llm_attributes; any_args_to T]
        = Some T)
  /\ (forall (T : ty) (ps : list param),
        call_export "withLlmCustomAttributes" [T] [llm_attributes; TFun ps T]
        = Some T).
Proof.
  split; [reflexivity|].
  split; intros T; [|intros ps];
    unfold call_export; rewrite declared_withLlmCustomAttributes;
    take_overload [req "attrs" llm_attributes; req "cb" (any_args_to T)] T.
Qed.

(** C8: noticeError has two overloads, (error: Error, expected?: boolean)
    and (error: Error, customAttributes?: { [key: string]: string | number |
    boolean }, expected?: boolean), both returning void: a call type-checks
    with the error alone, with the error and a boolean, with the error and an
    attribute map, and with the error, an attribute map and a boolean; it
    does not with two booleans after the error, nor with a boolean before
    the attribute map, nor without the error. *)
Theorem noticeError_overloads :
  declared "noticeError"
    = [plain [req "error" Error; opt "expected" TBoolean] TVoid;
       plain [req "error" Error;
              opt "customAttributes"
                (TObj [MIndex "key" TString (TUnion [TString; TNumber; TBoolean])]);
              opt "expected" TBoolean] TVoid]
  /\ call_export "noticeError" [] [Error] = Some TVoid
  /\ call_export "noticeError" [] [Error; TBoolean] = Some TVoid
  /\ call_export "noticeError" [] [Error; attribute_map "key"] = Some TVoid
  /\ call_export "noticeError" [] [Error; attribute_map "key"; TBoolean] = Some TVoid
  /\ call_export "noticeError" [] [Error; TBoolean; TBoolean] = None
  /\ call_export "noticeError" [] [Error; TBoolean; attribute_map "key"] = None
  /\ call_export "noticeError" [] [] = None.
Proof. repeat split; vm_compute; reflexivity. Qed.

(** C9: recordCustomEvent is declared to return undefined | false, a type
    the value false belongs to, while false is no value of void; of the
    exported record... functions (recordLogEvent, recordMetric,
    recordCustomEvent) it is the only one whose result is not void, and the
    other reporting functions noticeError and incrementMetric return void
    too. *)
Theorem recordCustomEvent_may_return_false :
  declared "recordCustomEvent"
    = [plain [req "eventType" TString;
              req "attributes"
                (TObj [MIndex "keys" TString (TUnion [TBoolean; TNumber; TString])])]
             (TUnion [TUndefined; TLitFalse])]
  /\ call_export "recordCustomEvent" [] [TString; attribute_map "keys"]
     = Some (TUnion [TUndefined; TLitFalse])
  /\ assignable_to index_d_ts TLitFalse (TUnion [TUndefined; TLitFalse]) = true
  /\ assignable_to index_d_ts TLitFalse TVoid = false
  /\ result_types is_recording_function
     = [("recordLogEvent", TVoid);
        ("recordMetric", TVoid);
        ("recordCustomEvent", TUnion [TUndefined; TLitFalse])]
  /\ map sig_ret (declared "noticeError") = [TVoid; TVoid]
  /\ map sig_ret (declared "incrementMetric") = [TVoid].
Proof. repeat split; vm_compute; reflexivity. Qed.

(** The one signature of setLlmTokenCountCallback. *)
Lemma declared_setLlmTokenCountCallback :
  declared "setLlmTokenCountCallback"
  = [Sig [TParam "T" None] [req "cb" (any_args_to (TVar "T"))] (TVar "T")].
Proof. reflexivity. Qed.

(** C10: setLlmTokenCountCallback has one signature, <T>(cb: (...args:
    any[]) => T): T, so for every type T the call with a callback returning T
    has result type T; the other function that sets a callback,
    setErrorGroupCallback, returns void, and so does every call signature of
    the four instrumentation-registering constants. *)
Theorem setLlmTokenCountCallback_returns_callback_result :
  declared "setLlmTokenCountCallback"
    = [Sig [TParam "T" None] [req "cb" (any_args_to (TVar "T"))] (TVar "T")]
  /\ (forall (T : ty) (ps : list param),
        call_export "setLlmTokenCountCallback" [T] [TFun ps T] = Some T)
  /\ result_types is_callback_setter
     = [("setErrorGroupCallback", TVoid);
        ("setLlmTokenCountCallback", TVar "T")]
  /\ constant_result_types
     = [("instrument", TRef "Instrument" [], [TVoid; TVoid]);
        ("instrumentDatastore", TRef "Instrument" [], [TVoid; TVoid]);
        ("instrumentWebframework", TRef "Instrument" [], [TVoid; TVoid]);
        ("instrumentMessages", TRef "Instrument" [], [TVoid; TVoid])].
Proof.
  split; [reflexivity|].
  split; [|split; vm_compute; reflexivity].
  intros T ps. unfold call_export. rewrite declared_setLlmTokenCountCallback.
  take_overload [req "cb" (any_args_to T)] T.
Qed.

End Surface.

(** ** Further facts about calls *)

Module CallFacts.

Import Typing Facts.
Local Open Scope nat_scope.

Section WithFile.

Variable file : list decl.

(** *** Instantiation *)

Lemma instantiate_some (s : signature) (targs : list ty) (sigma : tsubst) :
  bind_tparams (sig_tparams s) targs = Some sigma ->
  constraints_ok file sigma (sig_tparams s) targs = true ->
  instantiate file s targs
  = Some (map (subst_param sigma) (sig_params s), subst sigma (sig_ret s)).
Proof. unfold instantiate. now intros -> ->. Qed.

Lemma instantiate_unmet (s : signature) (targs : list ty) (sigma : tsubst) :
  bind_tparams (sig_tparams s) targs = Some sigma ->
  constraints_ok file sigma (sig_tparams s) targs = false ->
  instantiate file s targs = None.
Proof. unfold instantiate. now intros -> ->. Qed.

Lemma constraints_ok_cons (sigma : tsubst) (tp : tparam) (tps : list tparam)
      (T : ty) (targs : list ty) :
  constraints_ok file sigma (tp :: tps) (T :: targs)
  = match tp_constraint tp with
    | None => true
    | Some c => assignable_to file T (subst sigma c)
    end && constraints_ok file sigma tps targs.
Proof. reflexivity. Qed.

(** *** Reading a well-typed call backwards *)

Lemma call_single_inv (s : signature) (targs args : list ty) (r : ty) :
  call file [s] targs args = Some r -> apply_sig file s targs args = Some r.
Proof. simpl. now destruct (apply_sig file s targs args). Qed.

Lemma apply_sig_inv (s : signature) (targs args : list ty) (r : ty) :
  apply_sig file s targs args = Some r ->
  exists ps, instantiate file s targs = Some (ps, r) /\ args_ok file ps args = true.
Proof.
  unfold apply_sig.
  destruct (instantiate file s targs) as [[ps r']|]; [|discriminate].
  destruct (args_ok file ps args) eqn:Hok; [|discriminate].
  intros [= ->]. now exists ps.
Qed.

Lemma args_ok_inv (ps : list param) (args : list ty) :
  args_ok file ps args = true ->
  arity_ok ps (length args) = true /\
  forall i a, nth_error args i = Some a ->
    exists t, param_type_at ps i = Some t /\ assignable_to file a t = true.
Proof.
  unfold args_ok. intro H. apply andb_true_iff in H. destruct H as [Ha Hall].
  split; [exact Ha|].
  intros i a Hn. rewrite forallb_forall in Hall.
  assert (Hin : In (i, a) (combine (seq 0 (length args)) args)).
  { apply in_combine_seq. split; [lia|]. now rewrite Nat.sub_0_r. }
  specialize (Hall _ Hin). simpl in Hall.
  destruct (param_type_at ps i) as [t|]; [|discriminate].
  now exists t.
Qed.

(** *** Assignability of particular shapes *)

(** A function of no parameters may stand for a function of any parameters
    with the same result. *)
Lemma thunk_assignable (k : nat) (qs : list param) (r : ty) :
  assignable file (S (S k)) (TFun [] r) (TFun qs r) = true.
Proof.
  change (assignable file (S (S k)) (TFun [] r) (TFun qs r))
    with (ty_eqb (TFun [] r) (TFun qs r) ||
          (match max_arity qs with
           | None => true
           | Some m => min_arity [] <=? m
           end
           && forallb (fun i =>
                match param_type_at [] i, param_type_at qs i with
                | Some a, Some b => assignable file (S k) b a
                | _, _ => true
                end)
              (seq 0 (Nat.max (length (@nil param)) (length qs)))
           && match r with
              | TVoid => true
              | _ => assignable file (S k) r r
              end)).
  apply orb_true_iff; right.
  repeat (apply andb_true_iff; split).
  - now destruct (max_arity qs).
  - apply forallb_forall. now intros i _.
  - rewrite assignable_refl. now destruct r.
Qed.

(** A function type may be passed for an optional parameter of that type. *)
Lemma fun_assignable_optional (k : nat) (ps : list param) (r : ty) :
  assignable file (S (S k)) (TFun ps r) (TUnion [TFun ps r; TUndefined]) = true.
Proof.
  change (assignable file (S (S k)) (TFun ps r) (TUnion [TFun ps r; TUndefined]))
    with (ty_eqb (TFun ps r) (TUnion [TFun ps r; TUndefined]) ||
          (assignable file (S k) (TFun ps r) (TFun ps r) ||
           (assignable file (S k) (TFun ps r) TUndefined || false))).
  now rewrite assignable_refl.
Qed.

(** A string literal against a union of string literals. *)
Lemma literal_vs_literal (k : nat) (s d : string) :
  assignable file (S k) (TLitString s) (TLitString d) = String.eqb s d.
Proof. simpl. apply orb_false_r. Qed.

Lemma literal_vs_literals (k : nat) (s : string) (ds : list string) :
  assignable file (S (S k)) (TLitString s) (TUnion (map TLitString ds))
  = existsb (String.eqb s) ds.
Proof.
  change (assignable file (S (S k)) (TLitString s) (TUnion (map TLitString ds)))
    with (existsb (fun b => assignable file (S k) (TLitString s) b)
                  (map TLitString ds)).
  induction ds as [|d ds IH]; [reflexivity|].
  cbn [map existsb]. now rewrite literal_vs_literal, IH.
Qed.

(** The same where the union is the type of an optional parameter. *)
Lemma literal_vs_optional_literals (k : nat) (s : string) (ds : list string) :
  assignable file (S (S (S k))) (TLitString s)
             (TUnion [TUnion (map TLitString ds); TUndefined])
  = existsb (String.eqb s) ds.
Proof.
  change (assignable file (S (S (S k))) (TLitString s)
                     (TUnion [TUnion (map TLitString ds); TUndefined]))
    with (assignable file (S (S k)) (TLitString s) (TUnion (map TLitString ds))
          || (assignable file (S (S k)) (TLitString s) TUndefined || false)).
  rewrite literal_vs_literals.
  change (assignable file (S (S k)) (TLitString s) TUndefined) with false.
  now rewrite !orb_false_r.
Qed.

(** A function is not assignable to a function type of another result. *)
Lemma fun_wrong_result (k : nat) (ps qs : list param) (r r' : ty) :
  ty_eqb r r' = false ->
  match r' with TVoid => true | _ => assignable file (S k) r r' end = false ->
  assignable file (S (S k)) (TFun ps r) (TFun qs r') = false.
Proof.
  intros He Hr.
  change (assignable file (S (S k)) (TFun ps r) (TFun qs r'))
    with (list_eqb param_eqb ps qs && ty_eqb r r' ||
          (match max_arity qs with
           | None => true
           | Some m => min_arity ps <=? m
           end
           && forallb (fun i =>
                match param_type_at ps i, param_type_at qs i with
                | Some a, Some b => assignable file (S k) b a
                | _, _ => true
                end)
              (seq 0 (Nat.max (length ps) (length qs)))
           && match r' with
              | TVoid => true
              | _ => assignable file (S k) r r'
              end)).
  now rewrite He, Hr, !andb_false_r.
Qed.

(** A function of no parameters, whatever it returns, may be passed for an
    optional parameter of type [() => any]. *)
Lemma thunk_for_optional_any (k : nat) (r : ty) :
  assignable file (S (S (S k))) (TFun [] r) (TUnion [TFun [] TAny; TUndefined]) = true.
Proof.
  change (assignable file (S (S (S k))) (TFun [] r)
                     (TUnion [TFun [] TAny; TUndefined]))
    with ((ty_eqb (TFun [] r) (TFun [] TAny)
           || (true && assignable file (S k) r TAny))
          || (assignable file (S (S k)) (TFun [] r) TUndefined || false)).
  now rewrite assignable_any_r, orb_true_r.
Qed.

End WithFile.

End CallFacts.

(** ** Using the rest of the module *)

Module Usage.

Import Newrelic Typing Api Lint Facts CallFacts.

(** One argument against the type expected at its position. *)
Ltac fits_more :=
  first [ apply assignable_to_refl
        | apply function_type_fits_any_args
        | unfold assignable_to, depth;
          first [ apply assignable_any_r
                | apply fun_assignable_optional
                | apply thunk_assignable ]
        | reflexivity ].

(** [args_ok file ps args = true], argument by argument. *)
Ltac accept_all :=
  apply args_ok_intro;
  [ reflexivity
  | let i := fresh "i" in
    let a := fresh "a" in
    let Hi := fresh "Hi" in
    intros i a Hi;
    repeat (destruct i as [|i]; simpl in Hi; [injection Hi as <- | ]);
    [ eexists; split; [reflexivity | fits_more] ..
    | destruct i; discriminate ] ].

(** The one signature of createTracer. *)
Lemma declared_createTracer :
  declared "createTracer"
  = [Sig [TParam "T" (Some (any_args_to TAny))]
         [req "name" TString; req "handle" (TVar "T")]
         (TVar "T")].
Proof. reflexivity. Qed.

(** createTracer gives back a function of the type it was handed: for every
    function type, the call with a name and a handle of that type has that
    type as its result; a handle that is not a function, such as a number,
    is refused. *)
Theorem createTracer_preserves_handle_type :
  (forall (ps : list param) (r : ty),
      call_export "createTracer" [TFun ps r] [TString; TFun ps r] = Some (TFun ps r))
  /\ call_export "createTracer" [TNumber] [TString; TNumber] = None
  /\ (forall (ps : list param) (r : ty),
        call_export "createTracer" [TFun ps r] [TFun ps r] = None).
Proof.
  split; [|split; [reflexivity|]]; intros ps r; unfold call_export;
    rewrite declared_createTracer.
  - apply call_here.
    apply apply_sig_some
      with (ps := [req "name" TString; req "handle" (TFun ps r)]) (r := TFun ps r).
    + apply instantiate_one_constrained, function_type_meets_constraint.
    + accept_all.
  - rewrite call_next; [reflexivity|].
    apply apply_sig_bad_args
      with (ps := [req "name" TString; req "handle" (TFun ps r)]) (r := TFun ps r).
    + apply instantiate_one_constrained, function_type_meets_constraint.
    + now apply args_ok_bad_arity.
Qed.

(** The one signature of startSegment. *)
Lemma declared_startSegment :
  declared "startSegment"
  = [Sig [TParam "T" None; TParam "C" (Some (any_args_to TAny))]
         [req "name" TString;
          req "record" TBoolean;
          req "handler" (TFun [opt "cb" (TVar "C")] (TVar "T"));
          opt "callback" (TVar "C")]
         (TVar "T")].
Proof. reflexivity. Qed.

(** startSegment at a result type [T] and a callback type [C] that is a
    function type. *)
Lemma instantiate_startSegment (T : ty) (ps : list param) (r : ty) :
  instantiate index_d_ts
    (Sig [TParam "T" None; TParam "C" (Some (any_args_to TAny))]
         [req "name" TString;
          req "record" TBoolean;
          req "handler" (TFun [opt "cb" (TVar "C")] (TVar "T"));
          opt "callback" (TVar "C")]
         (TVar "T"))
    [T; TFun ps r]
  = Some ([req "name" TString;
           req "record" TBoolean;
           req "handler" (TFun [opt "cb" (TFun ps r)] T);
           opt "callback" (TFun ps r)], T).
Proof.
  rewrite instantiate_some with (sigma := [("T", T); ("C", TFun ps r)]).
  - reflexivity.
  - reflexivity.
  - cbn [sig_tparams]. rewrite !constraints_ok_cons. cbn [tp_constraint].
    change (subst [("T", T); ("C", TFun ps r)] (any_args_to TAny))
      with (TFun [Param "args" Rest (TArray TAny)] TAny).
    now rewrite function_type_meets_constraint.
Qed.

(** startSegment returns what its handler returns: for every result type T
    and every callback type C that is a function type, the call with a name,
    the record flag and a handler (cb?: C) => T has result type T, with the
    callback passed as fourth argument or left out, and also for a handler
    that takes no callback at all; without the record flag, or with a
    callback type that is not a function, the call does not type-check. *)
Theorem startSegment_returns_handler_result (T : ty) (ps : list param) (r : ty) :
  call_export "startSegment" [T; TFun ps r]
              [TString; TBoolean; TFun [opt "cb" (TFun ps r)] T] = Some T
  /\ call_export "startSegment" [T; TFun ps r]
                 [TString; TBoolean; TFun [opt "cb" (TFun ps r)] T; TFun ps r] = Some T
  /\ call_export "startSegment" [T; TFun ps r]
                 [TString; TBoolean; TFun [] T] = Some T
  /\ call_export "startSegment" [T; TFun ps r]
                 [TString; TFun [opt "cb" (TFun ps r)] T] = None
  /\ call_export "startSegment" [T; TNumber]
                 [TString; TBoolean; TFun [opt "cb" TNumber] T] = None.
Proof.
  unfold call_export. rewrite declared_startSegment.
  repeat split.
  - apply call_here. eapply apply_sig_some; [apply instantiate_startSegment|].
    accept_all.
  - apply call_here. eapply apply_sig_some; [apply instantiate_startSegment|].
    accept_all.
  - apply call_here. eapply apply_sig_some; [apply instantiate_startSegment|].
    accept_all.
  - rewrite call_next; [reflexivity|].
    eapply apply_sig_bad_args; [apply instantiate_startSegment|].
    now apply args_ok_bad_arity.
Qed.

(** The head overload takes the call. *)
Ltac head_takes qs res :=
  apply call_here;
  apply apply_sig_some with (ps := qs) (r := res); [reflexivity | accept_all].

(** The head overload has the wrong number of parameters for the call. *)
Ltac head_arity qs res :=
  rewrite call_next;
  [| apply apply_sig_bad_args with (ps := qs) (r := res);
     [reflexivity | apply args_ok_bad_arity; reflexivity]].

(** The head overload wants a promise where argument [n] is a function. *)
Ltac head_wants_promise qs res n :=
  rewrite call_next;
  [| apply apply_sig_bad_args with (ps := qs) (r := res);
     [ reflexivity
     | eapply args_ok_reject with (i := n);
       [ reflexivity | reflexivity
       | apply fun_not_assignable_opaque; reflexivity ] ] ].

(** Argument [n] is of a type the head overload does not take. *)
Ltac head_mismatch qs res n :=
  rewrite call_next;
  [| apply apply_sig_bad_args with (ps := qs) (r := res);
     [ reflexivity
     | eapply args_ok_reject with (i := n); reflexivity ] ].

Lemma overloads_of_startWebTransaction :
  declared "startWebTransaction"
  = [Sig [TParam "T" None]
         [req "url" TString; req "handle" (Promise (TVar "T"))]
         (Promise (TVar "T"));
     Sig [TParam "T" None]
         [req "url" TString; req "handle" (any_args_to (TVar "T"))]
         (TVar "T")].
Proof. reflexivity. Qed.

Lemma overloads_of_startBackgroundTransaction :
  declared "startBackgroundTransaction"
  = [Sig [TParam "T" None]
         [req "name" TString; req "handle" (Promise (TVar "T"))]
         (Promise (TVar "T"));
     Sig [TParam "T" None]
         [req "name" TString; req "handle" (any_args_to (TVar "T"))]
         (TVar "T");
     Sig [TParam "T" None]
         [req "name" TString; req "group" TString; req "handle" (Promise (TVar "T"))]
         (Promise (TVar "T"));
     Sig [TParam "T" None]
         [req "name" TString; req "group" TString; req "handle" (any_args_to (TVar "T"))]
         (TVar "T")].
Proof. reflexivity. Qed.

(** The transaction starters return what the handle returns, whatever
    parameters the handle declares: for every type T and parameter list, a
    call of startWebTransaction or startBackgroundTransaction (with or
    without group) on a function returning T has result type T; so a handle
    returning Promise<U> gives Promise<U>.  A handle whose result is not the
    type argument, or a call without handle, does not type-check. *)
Theorem transaction_result_is_handle_result (T : ty) (ps : list param) :
  call_export "startWebTransaction" [T] [TString; TFun ps T] = Some T
  /\ call_export "startBackgroundTransaction" [T] [TString; TFun ps T] = Some T
  /\ call_export "startBackgroundTransaction" [T] [TString; TString; TFun ps T] = Some T
  /\ call_export "startWebTransaction" [TNumber] [TString; TFun ps TString] = None
  /\ call_export "startWebTransaction" [T] [TString] = None
  /\ call_export "startBackgroundTransaction" [T] [TString; TString] = None.
Proof.
  unfold call_export.
  rewrite overloads_of_startWebTransaction, overloads_of_startBackgroundTransaction.
  split; [|split; [|split; [|split; [|split]]]].
  - head_wants_promise [req "url" TString; req "handle" (Promise T)] (Promise T) 1.
    head_takes [req "url" TString; req "handle" (any_args_to T)] T.
  - head_wants_promise [req "name" TString; req "handle" (Promise T)] (Promise T) 1.
    head_takes [req "name" TString; req "handle" (any_args_to T)] T.
  - head_arity [req "name" TString; req "handle" (Promise T)] (Promise T).
    head_arity [req "name" TString; req "handle" (any_args_to T)] T.
    head_wants_promise
      [req "name" TString; req "group" TString; req "handle" (Promise T)]
      (Promise T) 2.
    head_takes [req "name" TString; req "group" TString;
                req "handle" (any_args_to T)] T.
  - head_wants_promise
      [req "url" TString; req "handle" (Promise TNumber)] (Promise TNumber) 1.
    rewrite call_next; [reflexivity|].
    apply apply_sig_bad_args
      with (ps := [req "url" TString; req "handle" (any_args_to TNumber)])
           (r := TNumber); [reflexivity|].
    eapply args_ok_reject with (i := 1); [reflexivity | reflexivity |].
    unfold assignable_to, depth. now apply fun_wrong_result.
  - reflexivity.
  - head_mismatch [req "name" TString; req "handle" (Promise T)] (Promise T) 1.
    head_mismatch [req "name" TString; req "handle" (any_args_to T)] T 1.
    head_arity [req "name" TString; req "group" TString; req "handle" (Promise T)]
               (Promise T).
    head_arity [req "name" TString; req "group" TString;
                req "handle" (any_args_to T)] T.
    reflexivity.
Qed.

Lemma overloads_of_obfuscateSql :
  declared "obfuscateSql"
  = [plain [req "sql" TString;
            opt "dialect" (TUnion (map TLitString dialects))]
           TString].
Proof. reflexivity. Qed.

(** obfuscateSql takes the dialect as one of the four string literals
    mysql, postgres, cassandra and oracle and nothing else: for every string
    s, the call with the literal s as dialect type-checks (with result
    string) exactly when s is one of the four; the dialect may be left out,
    and an arbitrary string is refused. *)
Theorem obfuscateSql_dialects (s : string) :
  call_export "obfuscateSql" [] [TString; TLitString s]
    = (if existsb (String.eqb s) dialects then Some TString else None)
  /\ call_export "obfuscateSql" [] [TString] = Some TString
  /\ call_export "obfuscateSql" [] [TString; TString] = None
  /\ call_export "obfuscateSql" [] [] = None.
Proof.
  split; [|repeat split; vm_compute; reflexivity].
  unfold call_export. rewrite overloads_of_obfuscateSql.
  destruct (existsb (String.eqb s) dialects) eqn:E.
  - apply call_here.
    apply apply_sig_some
      with (ps := [req "sql" TString;
                   opt "dialect" (TUnion (map TLitString dialects))])
           (r := TString); [reflexivity|].
    apply args_ok_intro; [reflexivity|].
    intros i a Hi. destruct i as [|[|i]]; simpl in Hi.
    + injection Hi as <-. eexists; split; [reflexivity | apply assignable_to_refl].
    + injection Hi as <-.
      exists (TUnion [TUnion (map TLitString dialects); TUndefined]).
      split; [reflexivity|].
      unfold assignable_to, depth. now rewrite literal_vs_optional_literals.
    + destruct i; discriminate.
  - rewrite call_next; [reflexivity|].
    apply apply_sig_bad_args
      with (ps := [req "sql" TString;
                   opt "dialect" (TUnion (map TLitString dialects))])
           (r := TString); [reflexivity|].
    apply args_ok_reject
      with (i := 1) (a := TLitString s)
           (t := TUnion [TUnion (map TLitString dialects); TUndefined]);
      [reflexivity | reflexivity |].
    unfold assignable_to, depth. now rewrite literal_vs_optional_literals.
Qed.

(** instrumentLoadedModule takes a module instance of any type: for every
    type t the call with a module name and a t type-checks and its result is
    boolean; the name must be a string and the instance may not be left
    out. *)
Theorem instrumentLoadedModule_takes_any_instance (t : ty) :
  call_export "instrumentLoadedModule" [] [TString; t] = Some TBoolean
  /\ call_export "instrumentLoadedModule" [] [t] = None
  /\ call_export "instrumentLoadedModule" [] [TNumber; t] = None.
Proof.
  unfold call_export.
  replace (declared "instrumentLoadedModule")
    with [plain [req "moduleName" TString; req "moduleInstance" TAny] TBoolean]
    by reflexivity.
  split; [|split].
  - head_takes [req "moduleName" TString; req "moduleInstance" TAny] TBoolean.
  - head_arity [req "moduleName" TString; req "moduleInstance" TAny] TBoolean.
    reflexivity.
  - head_mismatch [req "moduleName" TString; req "moduleInstance" TAny] TBoolean 0.
    reflexivity.
Qed.

(** What insertDistributedTraceHeaders takes. *)
Lemma insert_headers_iff (h : ty) :
  call_method "TransactionHandle" "insertDistributedTraceHeaders" [h] = Some TVoid
  <-> assignable_to index_d_ts h trace_headers = true.
Proof.
  unfold call_method.
  replace (method_signatures index_d_ts "TransactionHandle"
             "insertDistributedTraceHeaders")
    with [plain [req "headers" trace_headers] TVoid] by reflexivity.
  split.
  - intro H. apply call_single_inv, apply_sig_inv in H.
    destruct H as (ps & Hi & Hok).
    injection Hi as <-.
    apply args_ok_inv in Hok. destruct Hok as [_ Hargs].
    destruct (Hargs 0 h eq_refl) as (t & Ht & Hat).
    injection Ht as <-. exact Hat.
  - intro H. apply call_here.
    apply apply_sig_some with (ps := [req "headers" trace_headers]) (r := TVoid);
      [reflexivity|].
    apply args_ok_intro; [reflexivity|].
    intros i a Hi. destruct i as [|i]; simpl in Hi.
    + injection Hi as <-. now exists trace_headers.
    + destruct i; discriminate.
Qed.

(** What acceptDistributedTraceHeaders takes after the transport type. *)
Lemma accept_headers_iff (h : ty) :
  call_method "TransactionHandle" "acceptDistributedTraceHeaders" [TString; h]
    = Some TVoid
  <-> assignable_to index_d_ts h trace_headers = true.
Proof.
  unfold call_method.
  replace (method_signatures index_d_ts "TransactionHandle"
             "acceptDistributedTraceHeaders")
    with [plain [req "transportType" TString; req "headers" trace_headers] TVoid]
    by reflexivity.
  split.
  - intro H. apply call_single_inv, apply_sig_inv in H.
    destruct H as (ps & Hi & Hok).
    injection Hi as <-.
    apply args_ok_inv in Hok. destruct Hok as [_ Hargs].
    destruct (Hargs 1 h eq_refl) as (t & Ht & Hat).
    injection Ht as <-. exact Hat.
  - intro H. apply call_here.
    apply apply_sig_some
      with (ps := [req "transportType" TString; req "headers" trace_headers])
           (r := TVoid); [reflexivity|].
    apply args_ok_intro; [reflexivity|].
    intros i a Hi. destruct i as [|[|i]]; simpl in Hi.
    + injection Hi as <-. exists TString. split; [reflexivity|].
      apply assignable_to_refl.
    + injection Hi as <-. now exists trace_headers.
    + destruct i; discriminate.
Qed.

(** The two header methods of TransactionHandle agree on what a headers map
    is: for every type h, insertDistributedTraceHeaders(h) type-checks
    exactly when acceptDistributedTraceHeaders(transport, h) does, so a map
    filled by the first can be handed to the second; both hold for a
    DistributedTraceHeaders, and the transport type cannot be left out. *)
Theorem trace_headers_inserted_are_accepted (h : ty) :
  (call_method "TransactionHandle" "insertDistributedTraceHeaders" [h] = Some TVoid
   <-> call_method "TransactionHandle" "acceptDistributedTraceHeaders" [TString; h]
       = Some TVoid)
  /\ call_method "TransactionHandle" "insertDistributedTraceHeaders" [trace_headers]
     = Some TVoid
  /\ call_method "TransactionHandle" "acceptDistributedTraceHeaders" [h] = None.
Proof.
  split; [|split].
  - rewrite insert_headers_iff, accept_headers_iff. reflexivity.
  - reflexivity.
  - unfold call_method.
    replace (method_signatures index_d_ts "TransactionHandle"
               "acceptDistributedTraceHeaders")
      with [plain [req "transportType" TString; req "headers" trace_headers] TVoid]
      by reflexivity.
    head_arity [req "transportType" TString; req "headers" trace_headers] TVoid.
    reflexivity.
Qed.

(** shutdown type-checks with no argument, with a callback, with an
    options object, and with options followed by a callback, always with
    result void; the options may be empty or undefined and the callback may
    ignore the error.  The callback before the options, an option of the
    wrong type, or a third argument are refused. *)
Theorem shutdown_forms :
  map sig_ret (declared "shutdown") = [TVoid; TVoid]
  /\ map (call_export "shutdown" [])
         [ [];
           [error_callback];
           [TFun [] TVoid];
           [TObj []];
           [TObj [MProp "collectPendingData" false TBoolean;
                  MProp "timeout" false TNumber;
                  MProp "waitForIdle" false TBoolean]];
           [TObj [MProp "timeout" false TNumber]; error_callback];
           [TUndefined; error_callback] ]
     = [Some TVoid; Some TVoid; Some TVoid; Some TVoid; Some TVoid; Some TVoid;
        Some TVoid]
  /\ map (call_export "shutdown" [])
         [ [error_callback; TObj []];
           [TObj [MProp "timeout" false TString]];
           [TObj []; error_callback; TBoolean];
           [TBoolean] ]
     = [None; None; None; None].
Proof. repeat split; vm_compute; reflexivity. Qed.

(** Each of instrument, instrumentDatastore, instrumentWebframework and
    instrumentMessages can be called in two ways, with one options object
    { moduleName, onRequire, onError? } or with (moduleName, onRequire,
    onError?), onError being optional in both and the result void; a call
    without onRequire is refused in both. *)
Theorem instrument_calling_conventions :
  map (fun c => snd c) (constants index_d_ts)
    = [TRef "Instrument" []; TRef "Instrument" []; TRef "Instrument" [];
       TRef "Instrument" []]
  /\ map fst (constants index_d_ts) = instrumenters
  /\ Forall (fun c =>
               call_export c [] [instrument_opts false] = Some TVoid
               /\ call_export c [] [instrument_opts true] = Some TVoid
               /\ call_export c [] [TString; TFun [] TVoid] = Some TVoid
               /\ call_export c [] [TString; TFun [] TVoid; TFun [req "err" Error] TVoid]
                  = Some TVoid
               /\ call_export c [] [TString] = None
               /\ call_export c [] [TObj [MProp "moduleName" false TString]] = None
               /\ call_export c [] [] = None)
            instrumenters.
Proof.
  split; [reflexivity|]. split; [reflexivity|].
  repeat constructor; vm_compute; reflexivity.
Qed.

(** recordLogEvent takes a log event with a message and any of level,
    timestamp and error: whichever optional fields are present the call
    type-checks, and whichever are present it does not once message is
    missing; a level that is not a string is refused. *)
Theorem recordLogEvent_requires_message (level timestamp error : bool) :
  call_export "recordLogEvent" [] [log_event level timestamp error] = Some TVoid
  /\ call_export "recordLogEvent" [] [log_event_without_message level timestamp error]
     = None
  /\ call_export "recordLogEvent" []
        [TObj [MProp "message" false TString; MProp "level" false TNumber]] = None
  /\ call_export "recordLogEvent" [] [] = None.
Proof.
  destruct level, timestamp, error; repeat split; vm_compute; reflexivity.
Qed.

(** getTraceMetadata may return an empty object, getLinkingMetadata may not:
    every field of TraceMetadata is optional, while a LinkingMetadata needs
    entity.name, entity.type and hostname; an object with these three string
    fields is one, and leaving any of them out is not. *)
Theorem metadata_required_fields :
  call_export "getTraceMetadata" [] [] = Some (TRef "TraceMetadata" [])
  /\ call_export "getLinkingMetadata" [] [] = Some (TRef "LinkingMetadata" [])
  /\ call_export "getLinkingMetadata" [] [TBoolean] = Some (TRef "LinkingMetadata" [])
  /\ assignable_to index_d_ts (TObj []) (TRef "TraceMetadata" []) = true
  /\ assignable_to index_d_ts (TObj []) (TRef "LinkingMetadata" []) = false
  /\ assignable_to index_d_ts
        (string_fields ["entity.name"; "entity.type"; "hostname"])
        (TRef "LinkingMetadata" []) = true
  /\ map (fun names => assignable_to index_d_ts (string_fields names)
                                     (TRef "LinkingMetadata" []))
         [ ["entity.type"; "hostname"];
           ["entity.name"; "hostname"];
           ["entity.name"; "entity.type"];
           ["trace.id"; "span.id"; "entity.guid"] ]
     = [false; false; false; false].
Proof. repeat split; vm_compute; reflexivity. Qed.

(** The span variants of the custom-attribute functions have the signatures
    of the transaction variants.  An attribute value is a string, a number
    or a boolean: a single value, the values of an attribute map and the
    attributes of a custom event are taken for these and unions of them, and
    refused for undefined, for an array and for an object. *)
Theorem custom_attribute_values :
  declared "addCustomSpanAttribute" = declared "addCustomAttribute"
  /\ declared "addCustomSpanAttributes" = declared "addCustomAttributes"
  /\ map (fun v => (call_export "addCustomAttribute" [] [TString; v],
                    call_export "addCustomAttributes" [] [TObj [MIndex "k" TString v]],
                    call_export "recordCustomEvent" []
                                [TString; TObj [MIndex "k" TString v]]))
         [TString; TNumber; TBoolean; TUnion [TNumber; TString]]
     = repeat (Some TVoid, Some TVoid, Some (TUnion [TUndefined; TLitFalse])) 4
  /\ map (fun v => (call_export "addCustomAttribute" [] [TString; v],
                    call_export "addCustomAttributes" [] [TObj [MIndex "k" TString v]],
                    call_export "recordCustomEvent" []
                                [TString; TObj [MIndex "k" TString v]]))
         [TUndefined; TArray TString; TRef "Metric" []; TUnion [TString; TUndefined]]
     = repeat (None, None, None) 4.
Proof. repeat split; vm_compute; reflexivity. Qed.

(** What addIgnoringRule takes. *)
Lemma ignoring_rule_iff (p : ty) :
  call_export "addIgnoringRule" [] [p] = Some TVoid
  <-> assignable_to index_d_ts p (TUnion [RegExp; TString]) = true.
Proof.
  unfold call_export.
  replace (declared "addIgnoringRule")
    with [plain [req "pattern" (TUnion [RegExp; TString])] TVoid] by reflexivity.
  split.
  - intro H. apply call_single_inv, apply_sig_inv in H.
    destruct H as (ps & Hi & Hok).
    injection Hi as <-.
    apply args_ok_inv in Hok. destruct Hok as [_ Hargs].
    destruct (Hargs 0 p eq_refl) as (t & Ht & Hat).
    injection Ht as <-. exact Hat.
  - intro H. apply call_here.
    apply apply_sig_some
      with (ps := [req "pattern" (TUnion [RegExp; TString])]) (r := TVoid);
      [reflexivity|].
    apply args_ok_intro; [reflexivity|].
    intros i a Hi. destruct i as [|i]; simpl in Hi.
    + injection Hi as <-. now exists (TUnion [RegExp; TString]).
    + destruct i; discriminate.
Qed.

(** What addNamingRule takes before the name. *)
Lemma naming_rule_iff (p : ty) :
  call_export "addNamingRule" [] [p; TString] = Some TVoid
  <-> assignable_to index_d_ts p (TUnion [RegExp; TString]) = true.
Proof.
  unfold call_export.
  replace (declared "addNamingRule")
    with [plain [req "pattern" (TUnion [RegExp; TString]); req "name" TString] TVoid]
    by reflexivity.
  split.
  - intro H. apply call_single_inv, apply_sig_inv in H.
    destruct H as (ps & Hi & Hok).
    injection Hi as <-.
    apply args_ok_inv in Hok. destruct Hok as [_ Hargs].
    destruct (Hargs 0 p eq_refl) as (t & Ht & Hat).
    injection Ht as <-. exact Hat.
  - intro H. apply call_here.
    apply apply_sig_some
      with (ps := [req "pattern" (TUnion [RegExp; TString]); req "name" TString])
           (r := TVoid); [reflexivity|].
    apply args_ok_intro; [reflexivity|].
    intros i a Hi. destruct i as [|[|i]]; simpl in Hi.
    + injection Hi as <-. now exists (TUnion [RegExp; TString]).
    + injection Hi as <-. exists TString. split; [reflexivity|].
      apply assignable_to_refl.
    + destruct i; discriminate.
Qed.

(** A naming rule and an ignoring rule take the same patterns: for every
    type p, addNamingRule(p, name) type-checks exactly when
    addIgnoringRule(p) does.  A pattern is a RegExp or a string, nothing
    else, and addNamingRule needs the name as well. *)
Theorem rule_patterns (p : ty) :
  (call_export "addNamingRule" [] [p; TString] = Some TVoid
   <-> call_export "addIgnoringRule" [] [p] = Some TVoid)
  /\ map (fun q => (call_export "addNamingRule" [] [q; TString],
                    call_export "addIgnoringRule" [] [q]))
         [RegExp; TString; TUnion [RegExp; TString]]
     = repeat (Some TVoid, Some TVoid) 3
  /\ map (fun q => (call_export "addNamingRule" [] [q; TString],
                    call_export "addIgnoringRule" [] [q]))
         [TNumber; TUndefined; TArray TString; Error]
     = repeat (None, None) 4
  /\ call_export "addNamingRule" [] [RegExp] = None
  /\ call_export "addIgnoringRule" [] [RegExp; TString] = None.
Proof.
  split; [|repeat split; vm_compute; reflexivity].
  rewrite naming_rule_iff, ignoring_rule_iff. reflexivity.
Qed.

(** incrementMetric counts by a number only: the amount is optional and a
    Metric record, which recordMetric takes, is refused. *)
Theorem incrementMetric_takes_no_Metric :
  call_export "incrementMetric" [] [TString] = Some TVoid
  /\ call_export "incrementMetric" [] [TString; TNumber] = Some TVoid
  /\ call_export "incrementMetric" [] [TString; TRef "Metric" []] = None
  /\ call_export "incrementMetric" [] [TString; metric_record] = None
  /\ call_export "recordMetric" [] [TString; TRef "Metric" []] = Some TVoid
  /\ call_export "recordMetric" [] [TString] = None.
Proof. repeat split; vm_compute; reflexivity. Qed.

(** getBrowserTimingHeader returns a string and every option is optional:
    the call type-checks without argument, with an empty options object and
    with any of nonce, hasToRemoveScriptWrapper and
    allowTransactionlessInjection; an option of the wrong type is refused. *)
Theorem getBrowserTimingHeader_options :
  map (call_export "getBrowserTimingHeader" [])
      [ [];
        [TObj []];
        [TObj [MProp "nonce" false TString]];
        [TObj [MProp "hasToRemoveScriptWrapper" false TBoolean]];
        [TObj [MProp "allowTransactionlessInjection" false TBoolean]];
        [TObj [MProp "nonce" false TString;
               MProp "hasToRemoveScriptWrapper" false TBoolean;
               MProp "allowTransactionlessInjection" false TBoolean]] ]
    = repeat (Some TString) 6
  /\ map (call_export "getBrowserTimingHeader" [])
         [ [TObj [MProp "nonce" false TNumber]];
           [TObj [MProp "hasToRemoveScriptWrapper" false TString]];
           [TString];
           [TObj []; TObj []] ]
     = repeat None 4.
Proof. repeat split; vm_compute; reflexivity. Qed.

(** Only getTransaction, getBrowserTimingHeader, endTransaction, shutdown,
    getLinkingMetadata and getTraceMetadata have an overload that can be
    called without arguments; in particular setControllerName needs the
    action as well as the name, and setDispatcher only the name. *)
Theorem functions_callable_without_arguments :
  nodup string_dec (callable_without_arguments index_d_ts)
    = ["getTransaction"; "getBrowserTimingHeader"; "endTransaction"; "shutdown";
       "getLinkingMetadata"; "getTraceMetadata"]
  /\ call_export "setControllerName" [] [TString] = None
  /\ call_export "setControllerName" [] [TString; TString] = Some TVoid
  /\ call_export "setDispatcher" [] [TString] = Some TVoid
  /\ call_export "setDispatcher" [] [TString; TString] = Some TVoid
  /\ call_export "setTransactionName" [] [] = None
  /\ call_export "setUserID" [] [] = None.
Proof. repeat split; vm_compute; reflexivity. Qed.

Lemma names_among_incl (allowed names : list string) :
  names_among allowed names = true -> incl names allowed.
Proof.
  unfold names_among. rewrite forallb_forall. intros H n Hn.
  specialize (H n Hn). apply existsb_exists in H.
  destruct H as (m & Hm & He). apply String.eqb_eq in He. now subst.
Qed.

(** The file stands on its own: every type name a declaration refers to is
    an interface or alias the file declares or one of Error, RegExp, Promise
    and Record of the standard library; every type parameter a declaration
    mentions is bound by the signature it occurs in; and no interface or
    alias is declared twice. *)
Theorem declarations_are_closed :
  Forall (fun d =>
            incl (decl_refs d) (declared_types index_d_ts ++ library_types)
            /\ decl_unbound_vars d = [])
         index_d_ts
  /\ NoDup (declared_types index_d_ts).
Proof.
  split.
  - apply Forall_forall. intros d Hd.
    assert (H : forallb (fun d =>
                  names_among (declared_types index_d_ts ++ library_types)
                              (decl_refs d)
                  && (length (decl_unbound_vars d) =? 0)%nat)
                index_d_ts = true) by (vm_compute; reflexivity).
    rewrite forallb_forall in H. specialize (H d Hd).
    apply andb_true_iff in H. destruct H as [Hr Hv]. split.
    + now apply names_among_incl.
    + destruct (decl_unbound_vars d); [reflexivity | discriminate].
  - replace (declared_types index_d_ts)
      with (nodup string_dec (declared_types index_d_ts))
      by (vm_compute; reflexivity).
    apply NoDup_nodup.
Qed.

(** Every parameter list of the file, of an exported function, of a method
    or call signature and of a function type nested in one, is in order: no
    required parameter follows an optional one, and a rest parameter is of
    array type and comes last.  There are 63 such lists. *)
Theorem parameter_lists_are_in_order :
  Forall (fun d => Forall (fun ps => in_order false ps = true) (decl_param_lists d))
         index_d_ts
  /\ length (flat_map decl_param_lists index_d_ts) = 63.
Proof.
  split; [|reflexivity].
  apply Forall_forall. intros d Hd. apply Forall_forall. intros ps Hps.
  assert (H : forallb (fun d => forallb (in_order false) (decl_param_lists d))
                      index_d_ts = true) by (vm_compute; reflexivity).
  rewrite forallb_forall in H. specialize (H d Hd).
  rewrite forallb_forall in H. exact (H ps Hps).
Qed.

(** DistributedTracePayload is the one declared type nothing in the file
    uses: every other interface or alias is referred to by some declaration,
    and no exported function takes or returns a DistributedTracePayload. *)
Theorem only_DistributedTracePayload_is_unused :
  unreferenced_types index_d_ts = ["DistributedTracePayload"]
  /\ declared_types index_d_ts
     = ["Instrument"; "Metric"; "DistributedTracePayload";
        "DistributedTraceHeaders"; "TransactionHandle"; "LinkingMetadata";
        "LogEvent"; "TraceMetadata"]
  /\ map member_name (interface_members index_d_ts "DistributedTracePayload")
     = [Some "text"; Some "httpSafe"].
Proof. repeat split; vm_compute; reflexivity. Qed.

(** The callback of TransactionHandle#end is optional and may return
    anything: for every type r, end type-checks with a function of no
    parameters returning r, and with no argument or undefined; a callback
    that needs an argument is refused.  ignore and isSampled take no
    argument, and isSampled answers with a boolean. *)
Theorem end_callback_may_return_anything (r : ty) :
  call_method "TransactionHandle" "end" [TFun [] r] = Some TVoid
  /\ call_method "TransactionHandle" "end" [] = Some TVoid
  /\ call_method "TransactionHandle" "end" [TUndefined] = Some TVoid
  /\ call_method "TransactionHandle" "end" [TFun [req "x" TString] TVoid] = None
  /\ call_method "TransactionHandle" "ignore" [] = Some TVoid
  /\ call_method "TransactionHandle" "ignore" [r] = None
  /\ call_method "TransactionHandle" "isSampled" [] = Some TBoolean
  /\ call_method "TransactionHandle" "isSampled" [r] = None.
Proof.
  split; [|repeat split; vm_compute; reflexivity].
  unfold call_method.
  replace (method_signatures index_d_ts "TransactionHandle" "end")
    with [plain [opt "callback" (TFun [] TAny)] TVoid] by reflexivity.
  apply call_here.
  apply apply_sig_some with (ps := [opt "callback" (TFun [] TAny)]) (r := TVoid);
    [reflexivity|].
  apply args_ok_intro; [reflexivity|].
  intros i a Hi. destruct i as [|i]; simpl in Hi.
  - injection Hi as <-. eexists; split; [reflexivity|].
    unfold assignable_to, depth. apply thunk_for_optional_any.
  - destruct i; discriminate.
Qed.

(** The callback of setErrorGroupCallback is a function from the error
    metadata to a string: it may ignore the metadata or read any part of it,
    and must return a string; a callback returning a number or nothing, one
    that expects a field the metadata lacks or of another type, or one that
    needs a second argument is refused, as is a call without callback. *)
Theorem setErrorGroupCallback_callbacks :
  declared "setErrorGroupCallback"
    = [plain [req "callback" (TFun [req "metadata" error_metadata] TString)] TVoid]
  /\ map (fun cb => call_export "setErrorGroupCallback" [] [cb])
         [ TFun [] TString;
           TFun [req "m" error_metadata] TString;
           TFun [req "m" (TObj [MProp "error" true Error])] TString;
           TFun [req "m" (TObj [MProp "request.uri" false TString;
                                MProp "http.method" false TString])] TString;
           TFun [req "m" TAny] (TLitString "group");
           TFun [req "m" TAny; opt "n" TAny] TString ]
     = repeat (Some TVoid) 6
  /\ map (fun cb => call_export "setErrorGroupCallback" [] [cb])
         [ TFun [] TNumber;
           TFun [] TVoid;
           TFun [req "m" (TObj [MProp "user" false TString])] TString;
           TFun [req "m" (TObj [MProp "http.statusCode" false TNumber])] TString;
           TFun [req "m" TAny; req "n" TAny] TString;
           TString ]
     = repeat None 6
  /\ call_export "setErrorGroupCallback" [] [] = None.
Proof. repeat split; vm_compute; reflexivity. Qed.

End Usage.
